(** * Announcements endpoints of the High School Management System API

    A shallow embedding of [src/backend/routers/announcements.py] and the
    properties of its five endpoints.

    The module under study is a thin layer over three collaborators that
    live outside the repository:
    - Python's [str] and [datetime] (string ordering, [str.replace],
      [datetime.isoformat], datetime comparison, [datetime.fromisoformat]);
    - the [bson.ObjectId] constructor;
    - two MongoDB collections reached through pymongo.
    Each of them is modelled below by an executable definition, except
    [datetime.fromisoformat], which the endpoints take as a parameter (the
    accepted grammar differs between Python releases); a concrete parser
    for the grammar of Python 3.7 to 3.10 is given in [Module Py37] and is
    used whenever a statement has to be evaluated on concrete input. *)

From Stdlib Require Import ZArith NArith List String Ascii Bool Lia.
From Stdlib Require Import Sorted Permutation.
Import ListNotations.

#[local] Open Scope string_scope.
#[local] Open Scope Z_scope.

(* ================================================================== *)
(** ** Python strings *)
(* ================================================================== *)

(** Strings are byte strings (the UTF-8 encoding of the Python [str]);
    Python compares [str] by code point and MongoDB compares strings
    byte-wise, and both agree with the lexicographic order on the UTF-8
    bytes, which is [String.compare]. *)

(** [s.replace("Z", "+00:00")]: every occurrence of the character is
    replaced. *)
Fixpoint replace_Z (s : string) : string :=
  match s with
  | EmptyString => EmptyString
  | String c s' =>
      if Ascii.eqb c "Z"%char then "+00:00" ++ replace_Z s'
      else String c (replace_Z s')
  end.

(** Truthiness of a [str]: the empty string is falsy. *)
Definition truthy (s : string) : bool :=
  match s with EmptyString => false | String _ _ => true end.

(** Truthiness of an [Optional[str]]: [None] and [""] are falsy. *)
Definition truthy_opt (o : option string) : bool :=
  match o with None => false | Some s => truthy s end.

Definition digit_char (d : Z) : ascii :=
  ascii_of_N (48 + Z.to_N d).

(** ["%0<width>d" % n] for [0 <= n < 10 ^ width]. *)
Fixpoint zfill (width : nat) (n : Z) : string :=
  match width with
  | O => EmptyString
  | S w => zfill w (n / 10) ++ String (digit_char (n mod 10)) EmptyString
  end.

(* ================================================================== *)
(** ** Python datetimes *)
(* ================================================================== *)

(** A [datetime] value. [tzinfo] is [None] for a naive datetime and
    [Some off] for an aware one, [off] being its UTC offset in
    microseconds (the only [tzinfo] objects that occur here are the fixed
    offsets built by [fromisoformat]). *)
Record datetime : Type := mk_datetime {
  year : Z;
  month : Z;
  day : Z;
  hour : Z;
  minute : Z;
  second : Z;
  microsecond : Z;
  tzinfo : option Z
}.

Definition is_leap (y : Z) : bool :=
  (y mod 4 =? 0) && (negb (y mod 100 =? 0) || (y mod 400 =? 0)).

Definition days_before_year (y : Z) : Z :=
  let p := y - 1 in p * 365 + p / 4 - p / 100 + p / 400.

Definition days_in_month (y m : Z) : Z :=
  if (m =? 2) && is_leap y then 29
  else nth (Z.to_nat m) [0; 31; 28; 31; 30; 31; 30; 31; 31; 30; 31; 30; 31] 0.

Definition days_before_month (y m : Z) : Z :=
  nth (Z.to_nat m) [0; 0; 31; 59; 90; 120; 151; 181; 212; 243; 273; 304; 334] 0
  + (if (2 <? m) && is_leap y then 1 else 0).

Definition ymd2ord (y m d : Z) : Z :=
  days_before_year y + days_before_month y m + d.

(** Microseconds since the start of day 0 of the proleptic calendar,
    offset not applied. *)
Definition wall_micros (d : datetime) : Z :=
  (((ymd2ord (year d) (month d) (day d) * 24 + hour d) * 60
    + minute d) * 60 + second d) * 1000000 + microsecond d.

(** Lexicographic comparison of the seven calendar fields, the
    "base compare" of [datetime._cmp]. *)
Fixpoint cmp_fields (a b : list Z) : comparison :=
  match a, b with
  | x :: a', y :: b' =>
      match x ?= y with
      | Eq => cmp_fields a' b'
      | c => c
      end
  | [], [] => Eq
  | [], _ :: _ => Lt
  | _ :: _, [] => Gt
  end.

Definition fields_of (d : datetime) : list Z :=
  [year d; month d; day d; hour d; minute d; second d; microsecond d].

Definition option_Z_eqb (a b : option Z) : bool :=
  match a, b with
  | None, None => true
  | Some x, Some y => x =? y
  | _, _ => false
  end.

(** [datetime._cmp] as used by the ordering operators: [None] stands for
    the [TypeError] raised when a naive datetime meets an aware one. *)
Definition datetime_cmp (a b : datetime) : option comparison :=
  if option_Z_eqb (tzinfo a) (tzinfo b) then
    Some (cmp_fields (fields_of a) (fields_of b))
  else
    match tzinfo a, tzinfo b with
    | Some oa, Some ob =>
        Some ((wall_micros a - oa) ?= (wall_micros b - ob))
    | _, _ => None
    end.

(** [a < b] *)
Definition datetime_lt (a b : datetime) : option bool :=
  match datetime_cmp a b with
  | Some Lt => Some true
  | Some _ => Some false
  | None => None
  end.

(** [a >= b] *)
Definition datetime_ge (a b : datetime) : option bool :=
  match datetime_cmp a b with
  | Some Lt => Some false
  | Some _ => Some true
  | None => None
  end.

(** The [+HH:MM[:SS[.ffffff]]] suffix written by [isoformat] for an aware
    datetime. *)
Definition format_offset (off : Z) : string :=
  let a := Z.abs off in
  let us := a mod 1000000 in
  let s := a / 1000000 in
  String (if off <? 0 then "-"%char else "+"%char)
    (zfill 2 (s / 3600) ++ ":" ++ zfill 2 (s / 60 mod 60)
     ++ (if (s mod 60 =? 0) && (us =? 0) then ""
         else ":" ++ zfill 2 (s mod 60)
              ++ (if us =? 0 then "" else "." ++ zfill 6 us))).

(** [d.isoformat()]: the microseconds are printed only when non-zero. *)
Definition isoformat (d : datetime) : string :=
  zfill 4 (year d) ++ "-" ++ zfill 2 (month d) ++ "-" ++ zfill 2 (day d)
  ++ "T" ++ zfill 2 (hour d) ++ ":" ++ zfill 2 (minute d)
  ++ ":" ++ zfill 2 (second d)
  ++ (if microsecond d =? 0 then "" else "." ++ zfill 6 (microsecond d))
  ++ match tzinfo d with None => "" | Some off => format_offset off end.

(** A naive datetime with the given calendar fields. *)
Definition naive (y mo d h mi s us : Z) : datetime :=
  mk_datetime y mo d h mi s us None.

(** Drops the offset: the system clock is read without a time zone. *)
Definition as_naive (d : datetime) : datetime :=
  mk_datetime (year d) (month d) (day d) (hour d) (minute d) (second d)
    (microsecond d) None.

(* ================================================================== *)
(** ** bson.ObjectId *)
(* ================================================================== *)

(** An [ObjectId] is represented by its lower-case hexadecimal form: this
    is what [str] returns, and two identifiers are equal exactly when
    their hexadecimal forms are. *)
Definition oid : Type := string.

Definition str_oid (o : oid) : string := o.

Definition is_space (c : ascii) : bool :=
  let n := N_of_ascii c in
  ((9 <=? n) && (n <=? 13) || (n =? 32))%N.

(** A hexadecimal digit, in lower case. *)
Definition hex_lower (c : ascii) : option ascii :=
  let n := N_of_ascii c in
  if ((48 <=? n) && (n <=? 57))%N then Some c
  else if ((97 <=? n) && (n <=? 102))%N then Some c
  else if ((65 <=? n) && (n <=? 70))%N then Some (ascii_of_N (n + 32))
  else None.

(** [bytes.fromhex]: pairs of hexadecimal digits, white space allowed
    between the pairs. *)
Fixpoint fromhex (s : string) : option string :=
  match s with
  | EmptyString => Some EmptyString
  | String c s' =>
      if is_space c then fromhex s'
      else
        match hex_lower c, s' with
        | Some h1, String c2 s'' =>
            match hex_lower c2, fromhex s'' with
            | Some h2, Some r => Some (String h1 (String h2 r))
            | _, _ => None
            end
        | _, _ => None
        end
  end.

(** [ObjectId(s)] for a [str] argument: [None] stands for the
    [InvalidId] exception. *)
Definition ObjectId (s : string) : option oid :=
  if (String.length s =? 24)%nat then fromhex s else None.

Definition hex_digit (d : N) : ascii :=
  if (d <? 10)%N then ascii_of_N (48 + d) else ascii_of_N (87 + d).

Fixpoint hex_fill (width : nat) (n : N) : string :=
  match width with
  | O => EmptyString
  | S w => hex_fill w (n / 16)%N
           ++ String (hex_digit (n mod 16)%N) EmptyString
  end.

(* ================================================================== *)
(** ** Data model *)
(* ================================================================== *)

(** The fields of an announcement document other than its identifier.
    [start_date] is [None] when the document holds [null]. *)
Record Fields : Type := mk_fields {
  message : string;
  start_date : option string;
  expiration_date : string;
  created_by : string;
  created_at : string
}.

(** A document as stored, under its ["_id"]. *)
Record Document : Type := mk_document {
  _id : oid;
  doc : Fields
}.

(** A document as returned: ["_id"] popped, ["id"] holding its string. *)
Record Response : Type := mk_response {
  id : string;
  fields : Fields
}.

(** [announcement["id"] = str(announcement.pop("_id"))] *)
Definition to_response (d : Document) : Response :=
  mk_response (str_oid (_id d)) (doc d).

(** The request bodies. *)
Module AnnouncementCreate.
Record t : Type := mk {
  message : string;
  start_date : option string;
  expiration_date : string
}.
End AnnouncementCreate.

Module AnnouncementUpdate.
Record t : Type := mk {
  message : option string;
  start_date : option string;
  expiration_date : option string
}.
End AnnouncementUpdate.

Definition option_string_eqb (a b : option string) : bool :=
  match a, b with
  | None, None => true
  | Some x, Some y => String.eqb x y
  | _, _ => false
  end.

Definition Fields_eqb (a b : Fields) : bool :=
  String.eqb (message a) (message b)
  && option_string_eqb (start_date a) (start_date b)
  && String.eqb (expiration_date a) (expiration_date b)
  && String.eqb (created_by a) (created_by b)
  && String.eqb (created_at a) (created_at b).

(* ================================================================== *)
(** ** The world: the two collections, the clock, the identifier supply *)
(* ================================================================== *)

(** [teachers_collection] is reduced to the ["_id"] of each teacher
    document, the only field the endpoints look at. [clock] is the
    sequence of instants successive calls to [datetime.now()] observe and
    [ticks] the number of calls made so far. [next_oid] numbers the
    identifiers the store hands out. *)
Record World : Type := mk_world {
  announcements_collection : list Document;
  teachers_collection : list string;
  clock : nat -> datetime;
  ticks : nat;
  next_oid : N
}.

Inductive Exn : Type :=
| HTTPException (status_code : Z) (detail : string)
| ValueError
| TypeError
| AttributeError.

Inductive Result (A : Type) : Type :=
| Ok (a : A)
| Raise (e : Exn).
Arguments Ok {A} a.
Arguments Raise {A} e.

(** A computation reads and writes the world and either returns or
    raises; what it wrote before raising stays written. *)
Definition M (A : Type) : Type := World -> Result A * World.

Definition ret {A} (a : A) : M A := fun w => (Ok a, w).

Definition raise {A} (e : Exn) : M A := fun w => (Raise e, w).

Definition bind {A B} (m : M A) (k : A -> M B) : M B :=
  fun w =>
    match m w with
    | (Ok a, w') => k a w'
    | (Raise e, w') => (Raise e, w')
    end.

Declare Scope py_scope.
Delimit Scope py_scope with py.
Notation "x <- m ;; k" := (bind m (fun x => k))
  (at level 61, m at next level, right associativity) : py_scope.
Notation "m ;; k" := (bind m (fun _ => k))
  (at level 61, right associativity) : py_scope.
#[local] Open Scope py_scope.

(** [try: body except ValueError: handler] *)
Definition try_except_ValueError {A} (body handler : M A) : M A :=
  fun w =>
    match body w with
    | (Raise ValueError, w') => handler w'
    | r => r
    end.

(** [if c: raise e] *)
Definition raise_if (c : bool) (e : Exn) : M unit :=
  if c then raise e else ret tt.

(** [datetime.now()] *)
Definition now : M datetime :=
  fun w =>
    (Ok (as_naive (clock w (ticks w))),
     mk_world (announcements_collection w) (teachers_collection w)
       (clock w) (S (ticks w)) (next_oid w)).

(** An ordering test between datetimes, raising [TypeError] when one is
    naive and the other aware. *)
Definition ordering (r : option bool) : M bool :=
  match r with
  | Some b => ret b
  | None => raise TypeError
  end.

(* ------------------------------------------------------------------ *)
(** *** pymongo *)

Definition set_announcements (l : list Document) (w : World) : World :=
  mk_world l (teachers_collection w) (clock w) (ticks w) (next_oid w).

(** [teachers_collection.find_one({"_id": u})] *)
Definition teachers_find_one (u : string) : M (option string) :=
  fun w => (Ok (find (String.eqb u) (teachers_collection w)), w).

(** Insertion into a list sorted by ["created_at"], descending. *)
Fixpoint insert_desc (d : Document) (l : list Document) : list Document :=
  match l with
  | [] => [d]
  | x :: l' =>
      if (created_at (doc x) <=? created_at (doc d))%string
      then d :: x :: l'
      else x :: insert_desc d l'
  end.

(** [cursor.sort("created_at", -1)] *)
Fixpoint sort_created_at_desc (l : list Document) : list Document :=
  match l with
  | [] => []
  | x :: l' => insert_desc x (sort_created_at_desc l')
  end.

(** [announcements_collection.find(query).sort("created_at", -1)] *)
Definition find_sorted (query : Document -> bool) : M (list Document) :=
  fun w =>
    (Ok (sort_created_at_desc (filter query (announcements_collection w))),
     w).

(** [announcements_collection.find_one({"_id": o})] *)
Definition find_one (o : oid) : M (option Document) :=
  fun w =>
    (Ok (find (fun d => String.eqb (_id d) o) (announcements_collection w)),
     w).

(** [announcements_collection.insert_one(f)], returning [inserted_id]. *)
Definition insert_one (f : Fields) : M oid :=
  fun w =>
    let o := hex_fill 24 (next_oid w) in
    (Ok o,
     mk_world (announcements_collection w ++ [mk_document o f])
       (teachers_collection w) (clock w) (ticks w) (N.succ (next_oid w))).

(** The keys an update document can carry. *)
Inductive Key : Type := K_message | K_start_date | K_expiration_date.

Definition set_field (f : Fields) (kv : Key * string) : Fields :=
  match kv with
  | (K_message, v) =>
      mk_fields v (start_date f) (expiration_date f)
        (created_by f) (created_at f)
  | (K_start_date, v) =>
      mk_fields (message f) (Some v) (expiration_date f)
        (created_by f) (created_at f)
  | (K_expiration_date, v) =>
      mk_fields (message f) (start_date f) v (created_by f) (created_at f)
  end.

(** The effect of [{"$set": update_doc}] on one document. *)
Definition apply_set (update_doc : list (Key * string)) (d : Document)
  : Document :=
  mk_document (_id d) (fold_left set_field update_doc (doc d)).

(** The first document under [o] replaced by [g] of it. *)
Fixpoint update_first (o : oid) (g : Document -> Document)
  (l : list Document) : list Document :=
  match l with
  | [] => []
  | x :: l' =>
      if String.eqb (_id x) o then g x :: l' else x :: update_first o g l'
  end.

(** [announcements_collection.update_one({"_id": o}, {"$set": u})],
    returning [(matched_count, modified_count)]. *)
Definition update_one (o : oid) (u : list (Key * string)) : M (nat * nat) :=
  fun w =>
    match find (fun d => String.eqb (_id d) o) (announcements_collection w)
    with
    | None => (Ok (0%nat, 0%nat), w)
    | Some d =>
        (Ok (1%nat,
             if Fields_eqb (doc (apply_set u d)) (doc d) then 0%nat
             else 1%nat),
         set_announcements
           (update_first o (apply_set u) (announcements_collection w)) w)
    end.

(** The first document under [o] removed. *)
Fixpoint remove_first (o : oid) (l : list Document) : list Document :=
  match l with
  | [] => []
  | x :: l' => if String.eqb (_id x) o then l' else x :: remove_first o l'
  end.

(** [announcements_collection.delete_one({"_id": o})], returning
    [deleted_count]. *)
Definition delete_one (o : oid) : M nat :=
  fun w =>
    match find (fun d => String.eqb (_id d) o) (announcements_collection w)
    with
    | None => (Ok 0%nat, w)
    | Some _ =>
        (Ok 1%nat,
         set_announcements (remove_first o (announcements_collection w)) w)
    end.

(* ================================================================== *)
(** ** The endpoints *)
(* ================================================================== *)

Definition detail_auth_required : string :=
  "Authentication required for this action".
Definition detail_invalid_teacher : string :=
  "Invalid teacher credentials".
Definition detail_not_future : string :=
  "Expiration date must be in the future".
Definition detail_start_order : string :=
  "Start date must be before expiration date".
Definition detail_date_format : string :=
  "Invalid date format. Use ISO format (YYYY-MM-DDTHH:MM:SS)".
Definition detail_invalid_id : string := "Invalid announcement ID".
Definition detail_not_found : string := "Announcement not found".
Definition detail_no_fields : string := "No fields to update".
Definition detail_update_failed : string := "Failed to update announcement".
Definition detail_deleted : string := "Announcement deleted successfully".

(** The check every authenticated endpoint starts with:
    [if not teacher_username: raise 401] then the directory lookup and
    [if not teacher: raise 401]. A teacher document is never empty (it
    has its ["_id"]), so it is falsy only when the lookup returns [None].
    [teacher_username] is [None] when the query parameter is absent,
    which only [get_all_announcements] admits. *)
Definition check_teacher (teacher_username : option string) : M unit :=
  match teacher_username with
  | None => raise (HTTPException 401 detail_auth_required)
  | Some u =>
      raise_if (negb (truthy u)) (HTTPException 401 detail_auth_required) ;;
      teacher <- teachers_find_one u ;;
      match teacher with
      | None => raise (HTTPException 401 detail_invalid_teacher)
      | Some _ => ret tt
      end
  end.

(** [try: obj_id = ObjectId(announcement_id) except Exception: raise 400] *)
Definition parse_id (announcement_id : string) : M oid :=
  match ObjectId announcement_id with
  | Some o => ret o
  | None => raise (HTTPException 400 detail_invalid_id)
  end.

(** The filter of the loop in [get_active_announcements]:
    [start_date is None or start_date <= current_time]. *)
Definition started (current_time : string) (a : Document) : bool :=
  match start_date (doc a) with
  | None => true
  | Some s => (s <=? current_time)%string
  end.

(** The query [{"expiration_date": {"$gte": current_time}}]. *)
Definition not_expired (current_time : string) (a : Document) : bool :=
  (current_time <=? expiration_date (doc a))%string.

(** [GET /announcements/active] *)
Definition get_active_announcements : M (list Response) :=
  t <- now ;;
  let current_time := isoformat t in
  cursor <- find_sorted (not_expired current_time) ;;
  ret (map to_response (filter (started current_time) cursor)).

(** [GET /announcements] *)
Definition get_all_announcements (teacher_username : option string)
  : M (list Response) :=
  check_teacher teacher_username ;;
  cursor <- find_sorted (fun _ => true) ;;
  ret (map to_response cursor).

Section Endpoints.

(** [datetime.fromisoformat]; [None] stands for [ValueError]. *)
Variable fromisoformat : string -> option datetime.

(** [datetime.fromisoformat(s.replace("Z", "+00:00"))] *)
Definition parse_date (s : string) : M datetime :=
  match fromisoformat (replace_Z s) with
  | Some d => ret d
  | None => raise ValueError
  end.

(** [expiration = parse(...); if expiration < datetime.now(): raise 400] *)
Definition check_expiration (expiration_date : string) : M datetime :=
  expiration <- parse_date expiration_date ;;
  t <- now ;;
  past <- ordering (datetime_lt expiration t) ;;
  raise_if past (HTTPException 400 detail_not_future) ;;
  ret expiration.

(** [POST /announcements] *)
Definition create_announcement (announcement : AnnouncementCreate.t)
  (teacher_username : string) : M Response :=
  check_teacher (Some teacher_username) ;;
  try_except_ValueError
    (expiration <-
       check_expiration (AnnouncementCreate.expiration_date announcement) ;;
     match AnnouncementCreate.start_date announcement with
     | Some s =>
         if truthy s then
           start <- parse_date s ;;
           late <- ordering (datetime_ge start expiration) ;;
           raise_if late (HTTPException 400 detail_start_order)
         else ret tt
     | None => ret tt
     end)
    (raise (HTTPException 400 detail_date_format)) ;;
  t <- now ;;
  let announcement_doc :=
    mk_fields (AnnouncementCreate.message announcement)
      (AnnouncementCreate.start_date announcement)
      (AnnouncementCreate.expiration_date announcement)
      teacher_username (isoformat t) in
  inserted_id <- insert_one announcement_doc ;;
  ret (mk_response (str_oid inserted_id) announcement_doc).

(** The update document before the expiration date is looked at. *)
Definition update_doc_of (announcement : AnnouncementUpdate.t)
  : list (Key * string) :=
  (match AnnouncementUpdate.message announcement with
   | Some m => [(K_message, m)]
   | None => []
   end
   ++
   match AnnouncementUpdate.start_date announcement with
   | Some s => [(K_start_date, s)]
   | None => []
   end)%list.

(** [PUT /announcements/{announcement_id}] *)
Definition update_announcement (announcement_id : string)
  (announcement : AnnouncementUpdate.t) (teacher_username : string)
  : M Response :=
  check_teacher (Some teacher_username) ;;
  obj_id <- parse_id announcement_id ;;
  existing <- find_one obj_id ;;
  match existing with
  | None => raise (HTTPException 404 detail_not_found)
  | Some _ => ret tt
  end ;;
  let update_doc := update_doc_of announcement in
  update_doc <-
    match AnnouncementUpdate.expiration_date announcement with
    | Some e =>
        try_except_ValueError
          (check_expiration e ;; ret tt)
          (raise (HTTPException 400 detail_date_format)) ;;
        ret (update_doc ++ [(K_expiration_date, e)])%list
    | None => ret update_doc
    end ;;
  raise_if (match update_doc with [] => true | _ => false end)
    (HTTPException 400 detail_no_fields) ;;
  result <- update_one obj_id update_doc ;;
  raise_if ((snd result =? 0)%nat && (fst result =? 0)%nat)
    (HTTPException 500 detail_update_failed) ;;
  updated <- find_one obj_id ;;
  match updated with
  | Some d => ret (to_response d)
  | None => raise AttributeError
  end.

End Endpoints.

(** [DELETE /announcements/{announcement_id}] *)
Definition delete_announcement (announcement_id teacher_username : string)
  : M string :=
  check_teacher (Some teacher_username) ;;
  obj_id <- parse_id announcement_id ;;
  deleted_count <- delete_one obj_id ;;
  raise_if (deleted_count =? 0)%nat (HTTPException 404 detail_not_found) ;;
  ret detail_deleted.

(* ================================================================== *)
(** ** A concrete [datetime.fromisoformat] *)
(* ================================================================== *)

(** The parser of Python 3.7 to 3.10, after the helpers of
    [Lib/datetime.py]: the grammar is
    [YYYY-MM-DD[*HH[:MM[:SS[.fff[fff]]]][+HH:MM[:SS[.ffffff]]]]], [*]
    being any single character, with decimal digits only and the range
    checks of the [datetime] constructor. *)
Module Py37.

Definition digit_value (c : ascii) : option Z :=
  let n := N_of_ascii c in
  if ((48 <=? n) && (n <=? 57))%N then Some (Z.of_N n - 48) else None.

Fixpoint digits (s : string) (acc : Z) : option Z :=
  match s with
  | EmptyString => Some acc
  | String c s' =>
      match digit_value c with
      | Some d => digits s' (acc * 10 + d)
      | None => None
      end
  end.

(** [int(s)] on a non-empty string of decimal digits. *)
Definition int_of (s : string) : option Z :=
  match s with
  | EmptyString => None
  | _ => digits s 0
  end.

Definition two_digits (s : string) : option (Z * string) :=
  match s with
  | String a (String b r) =>
      match digit_value a, digit_value b with
      | Some x, Some y => Some (10 * x + y, r)
      | _, _ => None
      end
  | _ => None
  end.

Definition is_char (c : ascii) (o : option ascii) : bool :=
  match o with
  | Some c' => Ascii.eqb c c'
  | None => false
  end.

(** [_parse_isoformat_date], on the first ten characters. *)
Definition parse_isoformat_date (d : string) : option (Z * Z * Z) :=
  if is_char "-" (String.get 4 d) && is_char "-" (String.get 7 d) then
    match int_of (substring 0 4 d), int_of (substring 5 2 d),
          int_of (substring 8 2 d) with
    | Some y, Some m, Some dd => Some (y, m, dd)
    | _, _, _ => None
    end
  else None.

(** The digits after the decimal point: three or six of them. *)
Definition parse_fraction (f : string) : option Z :=
  match String.length f with
  | 3%nat => option_map (Z.mul 1000) (int_of f)
  | 6%nat => int_of f
  | _ => None
  end.

(** [_parse_hh_mm_ss_ff]: [HH[:MM[:SS[.fff[fff]]]]]. *)
Definition parse_hh_mm_ss_ff (t : string) : option (Z * Z * Z * Z) :=
  match two_digits t with
  | Some (h, EmptyString) => Some (h, 0, 0, 0)
  | Some (h, String ":" r1) =>
      match two_digits r1 with
      | Some (m, EmptyString) => Some (h, m, 0, 0)
      | Some (m, String ":" r2) =>
          match two_digits r2 with
          | Some (s, EmptyString) => Some (h, m, s, 0)
          | Some (s, String "." f) =>
              option_map (fun us => (h, m, s, us)) (parse_fraction f)
          | _ => None
          end
      | _ => None
      end
  | _ => None
  end.

(** The string cut at the first occurrence of [c]. *)
Fixpoint cut (c : ascii) (s : string) : option (string * string) :=
  match s with
  | EmptyString => None
  | String x s' =>
      if Ascii.eqb x c then Some (EmptyString, s')
      else option_map (fun p => (String x (fst p), snd p)) (cut c s')
  end.

Definition one_day : Z := 24 * 3600 * 1000000.

(** The offset: all components zero is UTC, otherwise a [timezone]
    of the signed duration, which must be shorter than a day. *)
Definition parse_tz (sign : Z) (tz : string) : option Z :=
  let n := String.length tz in
  if ((n =? 5) || (n =? 8) || (n =? 15))%nat then
    match parse_hh_mm_ss_ff tz with
    | Some (h, m, s, us) =>
        let td := ((h * 60 + m) * 60 + s) * 1000000 + us in
        if td <? one_day then Some (sign * td) else None
    | None => None
    end
  else None.

(** [_parse_isoformat_time]: the offset starts at the first ["-"], or
    at the first ["+"] when there is no ["-"]. *)
Definition parse_isoformat_time (t : string)
  : option (Z * Z * Z * Z * option Z) :=
  if (String.length t <? 2)%nat then None
  else
    let '(timestr, tz) :=
      match cut "-" t with
      | Some (a, b) => (a, Some (-1, b))
      | None =>
          match cut "+" t with
          | Some (a, b) => (a, Some (1, b))
          | None => (t, None)
          end
      end in
    match parse_hh_mm_ss_ff timestr with
    | Some comps =>
        match tz with
        | None => Some (comps, None)
        | Some (sign, tzstr) =>
            option_map (fun off => (comps, Some off)) (parse_tz sign tzstr)
        end
    | None => None
    end.

Definition in_range (lo x hi : Z) : bool := (lo <=? x) && (x <=? hi).

(** The constructor, with [_check_date_fields] and
    [_check_time_fields]. *)
Definition make_datetime (y m d h mi s us : Z) (tz : option Z)
  : option datetime :=
  if in_range 1 y 9999 && in_range 1 m 12
     && in_range 1 d (days_in_month y m)
     && in_range 0 h 23 && in_range 0 mi 59 && in_range 0 s 59
     && in_range 0 us 999999
  then Some (mk_datetime y m d h mi s us tz)
  else None.

Definition fromisoformat (date_string : string) : option datetime :=
  let n := String.length date_string in
  if (n <? 10)%nat then None
  else
    match parse_isoformat_date (substring 0 10 date_string) with
    | Some (y, m, d) =>
        let tstr := substring 11 (n - 11) date_string in
        match tstr with
        | EmptyString => make_datetime y m d 0 0 0 0 None
        | _ =>
            match parse_isoformat_time tstr with
            | Some (h, mi, s, us, tz) => make_datetime y m d h mi s us tz
            | None => None
            end
        end
    | None => None
    end.

End Py37.

(* ================================================================== *)
(** ** The router *)
(* ================================================================== *)

(** A request to one of the five routes. [teacher_username] is optional
    on [GET /announcements] only. *)
Inductive Call : Type :=
| ListActive
| ListAll (teacher_username : option string)
| Create (announcement : AnnouncementCreate.t) (teacher_username : string)
| Update (announcement_id : string) (announcement : AnnouncementUpdate.t)
    (teacher_username : string)
| Delete (announcement_id : string) (teacher_username : string).

Inductive Reply : Type :=
| Announcements (l : list Response)
| Announcement (r : Response)
| Message (m : string).

Definition handle (fromisoformat : string -> option datetime) (c : Call)
  : M Reply :=
  match c with
  | ListActive => l <- get_active_announcements ;; ret (Announcements l)
  | ListAll u => l <- get_all_announcements u ;; ret (Announcements l)
  | Create a u =>
      r <- create_announcement fromisoformat a u ;; ret (Announcement r)
  | Update i a u =>
      r <- update_announcement fromisoformat i a u ;; ret (Announcement r)
  | Delete i u => m <- delete_announcement i u ;; ret (Message m)
  end.

(** The requester identifier a call carries, if any. *)
Definition requester (c : Call) : option string :=
  match c with
  | ListActive => None
  | ListAll u => u
  | Create _ u => Some u
  | Update _ _ u => Some u
  | Delete _ u => Some u
  end.

(** A requester the directory knows. *)
Definition authorized (u : string) (w : World) : Prop :=
  u <> EmptyString /\ In u (teachers_collection w).

(** The instant the next call to [datetime.now()] observes. *)
Definition current_instant (w : World) : datetime :=
  as_naive (clock w (ticks w)).

(** The world after one reading of the clock. *)
Definition tick (w : World) : World :=
  mk_world (announcements_collection w) (teachers_collection w) (clock w)
    (S (ticks w)) (next_oid w).

(* ------------------------------------------------------------------ *)
(** *** The ordering invariant of the data model *)

(** [start_date < expiration_date] for one document, as [create]
    compares them: both parse and the parsed start is before the parsed
    expiration. Vacuous when [start_date] is absent. *)
Definition start_before_expiration
  (fromisoformat : string -> option datetime) (f : Fields) : bool :=
  match start_date f with
  | None => true
  | Some s =>
      match fromisoformat (replace_Z s),
            fromisoformat (replace_Z (expiration_date f)) with
      | Some a, Some b =>
          match datetime_lt a b with
          | Some true => true
          | _ => false
          end
      | _, _ => false
      end
  end.

Definition ordered (fromisoformat : string -> option datetime)
  (d : Document) : Prop :=
  start_before_expiration fromisoformat (doc d) = true.

Definition dates_ordered (fromisoformat : string -> option datetime)
  (w : World) : Prop :=
  Forall (ordered fromisoformat) (announcements_collection w).

(** The calls whose dates the code checks against each other, or does not
    touch: everything but a [create] given an empty [start_date] and an
    [update] that supplies one of the two dates. *)
Definition ordering_kept (c : Call) : Prop :=
  match c with
  | Create a _ => AnnouncementCreate.start_date a <> Some EmptyString
  | Update _ a _ =>
      AnnouncementUpdate.start_date a = None
      /\ AnnouncementUpdate.expiration_date a = None
  | _ => True
  end.

(* ------------------------------------------------------------------ *)
(** *** Listings *)

(** Newest first, on stored documents. *)
Definition doc_newer_or_same (a b : Document) : Prop :=
  (created_at (doc b) <=? created_at (doc a))%string = true.

(** Newest first: [a] may precede [b]. *)
Definition newer_or_same (a b : Response) : Prop :=
  (created_at (fields b) <=? created_at (fields a))%string = true.

(** The condition under which an announcement is active at the instant
    printed as [current_time]. *)
Definition active_at (current_time : string) (f : Fields) : Prop :=
  (current_time <=? expiration_date f)%string = true
  /\ (start_date f = None
      \/ exists s, start_date f = Some s
                   /\ (s <=? current_time)%string = true).

(* ------------------------------------------------------------------ *)
(** *** What a validated update does *)

(** The outcome of [update_announcement] once the requester, the
    identifier, the target [existing] and the expiration date have passed
    their checks, [update_doc] being the update document and [w] the
    world at that point. *)
Definition apply_update (o : oid) (update_doc : list (Key * string))
  (existing : Document) (w : World) : Result Response * World :=
  match update_doc with
  | [] => (Raise (HTTPException 400 detail_no_fields), w)
  | _ :: _ =>
      (Ok (to_response (apply_set update_doc existing)),
       set_announcements
         (update_first o (apply_set update_doc) (announcements_collection w))
         w)
  end.

(** A field of the request when it is supplied, the stored one otherwise. *)
Definition supplied_or {A} (supplied : option A) (stored : A) : A :=
  match supplied with
  | Some v => v
  | None => stored
  end.

(* ------------------------------------------------------------------ *)
(** *** What a validated create does *)

(** The part of [create_announcement] that follows the validation: the
    document is stamped with the clock and inserted. *)
Definition insert_announcement (announcement : AnnouncementCreate.t)
  (teacher_username : string) : M Response :=
  t <- now ;;
  let announcement_doc :=
    mk_fields (AnnouncementCreate.message announcement)
      (AnnouncementCreate.start_date announcement)
      (AnnouncementCreate.expiration_date announcement)
      teacher_username (isoformat t) in
  inserted_id <- insert_one announcement_doc ;;
  ret (mk_response (str_oid inserted_id) announcement_doc).

(* ------------------------------------------------------------------ *)
(** *** Outcomes *)

(** The [start_date] of a create request gets past the check against the
    parsed [expiration]: it is absent or empty, and then not looked at,
    or it parses to a datetime for which [start >= expiration] is
    false. *)
Definition start_date_passes (fromisoformat : string -> option datetime)
  (start : option string) (expiration : datetime) : Prop :=
  match start with
  | None => True
  | Some s =>
      truthy s = false
      \/ exists ds, fromisoformat (replace_Z s) = Some ds
                    /\ datetime_ge ds expiration = Some false
  end.

(** What an announcement keeps for life: its identifier, its author and
    its creation stamp. *)
Definition birth (d : Document) : oid * string * string :=
  (_id d, created_by (doc d), created_at (doc d)).

(** The store of the world a computation ends in. *)
Definition store_after {A} (r : Result A * World) : list Document :=
  announcements_collection (snd r).

(** Strings of lower-case hexadecimal digits. *)
Fixpoint lower_hex (s : string) : bool :=
  match s with
  | EmptyString => true
  | String c s' =>
      negb (is_space c)
      && match hex_lower c with
         | Some c' => Ascii.eqb c' c
         | None => false
         end
      && lower_hex s'
  end.

(** [d.date().isoformat()]: the first ten characters of [isoformat]. *)
Definition isoformat_date (d : datetime) : string :=
  zfill 4 (year d) ++ "-" ++ zfill 2 (month d) ++ "-" ++ zfill 2 (day d).

(* ================================================================== *)
(** ** Sample data *)
(* ================================================================== *)

Module Sample.

Definition noon : datetime := naive 2026 11 4 12 0 0 0.

Definition science_fair : Document :=
  mk_document "000000000000000000000001"
    (mk_fields "Science fair" (Some "2026-12-01T00:00:00")
       "2026-12-31T00:00:00" "mrodriguez" "2026-10-01T09:00:00").

Definition last_term : Document :=
  mk_document "000000000000000000000002"
    (mk_fields "Last term ends" None "2026-01-01T00:00:00" "mchen"
       "2025-12-01T09:00:00").

Definition enrolment : Document :=
  mk_document "000000000000000000000003"
    (mk_fields "Enrolment is open" None "2027-01-01T00:00:00" "mchen"
       "2026-10-15T08:30:00").

(** A store of three announcements, two teachers, a clock showing noon
    of 4 November 2026 at every reading. *)
Definition school : World :=
  mk_world [science_fair; last_term; enrolment] ["mrodriguez"; "mchen"]
    (fun _ => noon) 0 4.

Definition only_message (m : string) : AnnouncementUpdate.t :=
  AnnouncementUpdate.mk (Some m) None None.

Definition only_expiration (e : string) : AnnouncementUpdate.t :=
  AnnouncementUpdate.mk None None (Some e).

(** An expiration date far in the future, in UTC. *)
Definition zulu : string := "2999-01-01T00:00:00Z".

Definition assembly_at_noon : AnnouncementCreate.t :=
  AnnouncementCreate.mk "Assembly" None "2026-11-04T12:00:00".

Definition winter_concert : AnnouncementCreate.t :=
  AnnouncementCreate.mk "Winter concert" (Some "2026-12-10T18:00:00")
    "2026-12-10T21:00:00".

(** The start carries an offset, the expiration does not; the start is
    five months after the expiration in any time zone. *)
Definition graduation : AnnouncementCreate.t :=
  AnnouncementCreate.mk "Graduation" (Some "2999-06-01T00:00:00Z")
    "2999-01-01T00:00:00".

Definition open_day : AnnouncementCreate.t :=
  AnnouncementCreate.mk "Open day" (Some "") "2999-01-01T00:00:00".

End Sample.

(** More sample data. *)
Module Cases.

(** Expires today at one o'clock, written with a space. *)
Definition lunch_today : Document :=
  mk_document "00000000000000000000000a"
    (mk_fields "Lunch is served in the gym" None "2026-11-04 13:00:00"
       "mchen" "2026-11-04T08:00:00").

Definition canteen : World :=
  mk_world [lunch_today] ["mchen"] (fun _ => Sample.noon) 0 11.

Definition lunch : AnnouncementCreate.t :=
  AnnouncementCreate.mk "Lunch is served in the gym" None
    "2026-11-04 13:00:00".

Definition no_fields : AnnouncementUpdate.t :=
  AnnouncementUpdate.mk None None None.

Definition message_and_expiration (m e : string) : AnnouncementUpdate.t :=
  AnnouncementUpdate.mk (Some m) None (Some e).

Definition only_start (s : string) : AnnouncementUpdate.t :=
  AnnouncementUpdate.mk None (Some s) None.

Definition create_with (start : option string) (expiration : string)
  : AnnouncementCreate.t :=
  AnnouncementCreate.mk "Parents' evening" start expiration.

End Cases.

(* ================================================================== *)
(** ** String order *)
(* ================================================================== *)

Lemma string_compare_lt_trans (a b c : string) :
  (a ?= b)%string = Lt -> (b ?= c)%string = Lt -> (a ?= c)%string = Lt.
Proof.
  revert b c.
  induction a as [|x a IH]; intros [|y b] [|z c]; simpl; try congruence.
  unfold Ascii.compare.
  destruct (N.compare_spec (N_of_ascii x) (N_of_ascii y)) as [E1|L1|G1];
    destruct (N.compare_spec (N_of_ascii y) (N_of_ascii z)) as [E2|L2|G2];
    try congruence; intros H1 H2.
  - rewrite E1, E2, N.compare_refl. eauto.
  - rewrite E1. apply N.compare_lt_iff in L2. now rewrite L2.
  - rewrite <- E2. apply N.compare_lt_iff in L1. now rewrite L1.
  - assert (L : (N_of_ascii x < N_of_ascii z)%N) by lia.
    apply N.compare_lt_iff in L. now rewrite L.
Qed.

Lemma string_leb_trans (a b c : string) :
  (a <=? b)%string = true -> (b <=? c)%string = true ->
  (a <=? c)%string = true.
Proof.
  unfold String.leb.
  destruct (a ?= b)%string eqn:E1; try discriminate;
    destruct (b ?= c)%string eqn:E2; try discriminate; intros _ _.
  - apply String.compare_eq_iff in E1. subst. now rewrite E2.
  - apply String.compare_eq_iff in E1. subst. now rewrite E2.
  - apply String.compare_eq_iff in E2. subst. now rewrite E1.
  - now rewrite (string_compare_lt_trans a b c E1 E2).
Qed.

Lemma string_leb_false (a b : string) :
  (a <=? b)%string = false -> (b <=? a)%string = true.
Proof.
  intros H. destruct (String.leb_total a b) as [T|T]; congruence.
Qed.

(* ================================================================== *)
(** ** The sort *)
(* ================================================================== *)

Lemma insert_desc_perm (d : Document) (l : list Document) :
  Permutation (insert_desc d l) (d :: l).
Proof.
  induction l as [|x l IH]; simpl.
  - reflexivity.
  - destruct (created_at (doc x) <=? created_at (doc d))%string.
    + reflexivity.
    + rewrite IH. apply perm_swap.
Qed.

Lemma sort_created_at_desc_perm (l : list Document) :
  Permutation (sort_created_at_desc l) l.
Proof.
  induction l as [|x l IH]; simpl.
  - reflexivity.
  - rewrite insert_desc_perm. now rewrite IH.
Qed.

Lemma insert_desc_sorted (d : Document) (l : list Document) :
  StronglySorted doc_newer_or_same l ->
  StronglySorted doc_newer_or_same (insert_desc d l).
Proof.
  induction 1 as [|x l Hl IH Hx]; simpl.
  - repeat constructor.
  - destruct (created_at (doc x) <=? created_at (doc d))%string eqn:E.
    + constructor.
      * now constructor.
      * constructor; [exact E|].
        eapply Forall_impl; [|exact Hx].
        intros y Hy. unfold doc_newer_or_same in *.
        eapply string_leb_trans; eassumption.
    + constructor; [exact IH|].
      apply (Permutation_Forall (Permutation_sym (insert_desc_perm d l))).
      constructor; [|exact Hx].
      now apply string_leb_false.
Qed.

Lemma sort_created_at_desc_sorted (l : list Document) :
  StronglySorted doc_newer_or_same (sort_created_at_desc l).
Proof.
  induction l as [|x l IH]; simpl.
  - constructor.
  - now apply insert_desc_sorted.
Qed.

Lemma StronglySorted_filter_keep {A} (R : A -> A -> Prop) (p : A -> bool)
  (l : list A) :
  StronglySorted R l -> StronglySorted R (filter p l).
Proof.
  induction 1 as [|x l Hl IH Hx]; simpl.
  - constructor.
  - destruct (p x); [|exact IH].
    constructor; [exact IH|].
    apply Forall_forall. intros y Hy. apply filter_In in Hy.
    rewrite Forall_forall in Hx. now apply Hx.
Qed.

Lemma StronglySorted_to_response (l : list Document) :
  StronglySorted doc_newer_or_same l ->
  StronglySorted newer_or_same (map to_response l).
Proof.
  induction 1 as [|x l Hl IH Hx]; simpl.
  - constructor.
  - constructor; [exact IH|].
    apply Forall_forall. intros y Hy. apply in_map_iff in Hy.
    destruct Hy as [z [<- Hz]]. rewrite Forall_forall in Hx.
    exact (Hx z Hz).
Qed.

Lemma In_sort_created_at_desc (d : Document) (l : list Document) :
  In d (sort_created_at_desc l) <-> In d l.
Proof.
  split; apply Permutation_in;
    [|apply Permutation_sym]; apply sort_created_at_desc_perm.
Qed.

(* ================================================================== *)
(** ** Running computations *)
(* ================================================================== *)

Lemma bind_ok {A B} (m : M A) (k : A -> M B) (w w' : World) (a : A) :
  m w = (Ok a, w') -> bind m k w = k a w'.
Proof. unfold bind. now intros ->. Qed.

Lemma bind_raise {A B} (m : M A) (k : A -> M B) (w w' : World) (e : Exn) :
  m w = (Raise e, w') -> bind m k w = (Raise e, w').
Proof. unfold bind. now intros ->. Qed.

Lemma truthy_nonempty (u : string) : truthy u = true <-> u <> EmptyString.
Proof. destruct u; simpl; split; congruence. Qed.

Lemma find_eqb_In (u : string) (l : list string) :
  In u l -> find (String.eqb u) l = Some u.
Proof.
  induction l as [|x l IH]; simpl; [tauto|].
  destruct (String.eqb_spec u x) as [->|N]; [reflexivity|].
  intros [E|H]; [congruence|auto].
Qed.

Lemma find_eqb_not_In (u : string) (l : list string) :
  ~ In u l -> find (String.eqb u) l = None.
Proof.
  induction l as [|x l IH]; simpl; [reflexivity|].
  destruct (String.eqb_spec u x) as [->|N]; [tauto|].
  intros H. apply IH. tauto.
Qed.

Lemma check_teacher_ok (u : string) (w : World) :
  authorized u w -> check_teacher (Some u) w = (Ok tt, w).
Proof.
  intros [Hu Hin]. unfold check_teacher, bind, raise_if, teachers_find_one.
  apply truthy_nonempty in Hu. rewrite Hu. simpl.
  now rewrite (find_eqb_In u _ Hin).
Qed.

Lemma check_teacher_missing (r : option string) (w : World) :
  truthy_opt r = false ->
  check_teacher r w = (Raise (HTTPException 401 detail_auth_required), w).
Proof.
  destruct r as [u|]; simpl; [|reflexivity].
  intros Hu. unfold bind, raise_if. now rewrite Hu.
Qed.

Lemma check_teacher_unknown (u : string) (w : World) :
  truthy u = true -> ~ In u (teachers_collection w) ->
  check_teacher (Some u) w
  = (Raise (HTTPException 401 detail_invalid_teacher), w).
Proof.
  intros Hu Hin. unfold check_teacher, bind, raise_if, teachers_find_one.
  rewrite Hu. simpl. now rewrite (find_eqb_not_In u _ Hin).
Qed.

(** A call that fails the teacher check fails as a whole, with the same
    exception and the world as it was. *)
Lemma handle_unauthenticated fromisoformat (c : Call) (w : World) (e : Exn) :
  c <> ListActive ->
  check_teacher (requester c) w = (Raise e, w) ->
  handle fromisoformat c w = (Raise e, w).
Proof.
  intros Hc H. destruct c as [|u|a u|i a u|i u]; [congruence| | | |];
    simpl in H; unfold handle;
    apply bind_raise;
    [unfold get_all_announcements | unfold create_announcement
    | unfold update_announcement | unfold delete_announcement];
    now apply bind_raise.
Qed.

Lemma get_active_announcements_eq (w : World) :
  get_active_announcements w
  = (Ok (map to_response
           (filter (started (isoformat (current_instant w)))
              (sort_created_at_desc
                 (filter (not_expired (isoformat (current_instant w)))
                    (announcements_collection w))))),
     tick w).
Proof. reflexivity. Qed.

Lemma get_all_announcements_eq (u : string) (w : World) :
  authorized u w ->
  get_all_announcements (Some u) w
  = (Ok (map to_response
           (sort_created_at_desc
              (filter (fun _ => true) (announcements_collection w)))),
     w).
Proof.
  intros H. unfold get_all_announcements.
  rewrite (bind_ok _ _ _ _ _ (check_teacher_ok u w H)). reflexivity.
Qed.

Lemma active_at_spec (t : string) (a : Document) :
  not_expired t a && started t a = true <-> active_at t (doc a).
Proof.
  unfold not_expired, started, active_at. rewrite andb_true_iff.
  destruct (start_date (doc a)) as [s|].
  - split.
    + intros [H1 H2]. split; [exact H1|]. right. now exists s.
    + intros [H1 [H2|[s' [E H2]]]]; [discriminate|].
      injection E as <-. now split.
  - split.
    + intros [H1 _]. split; [exact H1|]. now left.
    + intros [H1 _]. now split.
Qed.

(* ================================================================== *)
(** ** The listings *)
(* ================================================================== *)

(** C1. [get_active_announcements] takes no requester and succeeds in
    every world, whatever the Teacher Directory holds; the two
    collections are as they were afterwards; and an announcement of the
    store is in the result if and only if [expiration_date >= now] and
    ([start_date] is absent or [start_date <= now]), the comparisons
    being those of the strings with [now] the ISO-8601 print of the
    instant the clock shows when the endpoint reads it. *)
Theorem list_active_contract (w : World) :
  exists (result : list Response) (w' : World),
    get_active_announcements w = (Ok result, w')
    /\ announcements_collection w' = announcements_collection w
    /\ teachers_collection w' = teachers_collection w
    /\ forall a : Document,
         In a (announcements_collection w) ->
         (In (to_response a) result
          <-> active_at (isoformat (current_instant w)) (doc a)).
Proof.
  eexists. exists (tick w). split; [apply get_active_announcements_eq|].
  split; [reflexivity|]. split; [reflexivity|].
  intros a Ha. rewrite <- active_at_spec, andb_true_iff, in_map_iff.
  split.
  - intros [b [E Hb]].
    apply filter_In in Hb. destruct Hb as [Hb Hs].
    apply In_sort_created_at_desc, filter_In in Hb. destruct Hb as [_ He].
    assert (D : doc b = doc a) by (now injection E).
    unfold not_expired, started in *. rewrite <- D. now split.
  - intros [He Hs]. exists a. split; [reflexivity|].
    apply filter_In. split; [|exact Hs].
    apply In_sort_created_at_desc, filter_In. now split.
Qed.

Lemma list_active_contract_witness :
  exists (result : list Response) (w' : World),
    get_active_announcements Sample.school = (Ok result, w')
    /\ In (to_response Sample.enrolment) result
    /\ ~ In (to_response Sample.last_term) result
    /\ ~ In (to_response Sample.science_fair) result.
Proof.
  destruct (list_active_contract Sample.school)
    as [result [w' [E [_ [_ H]]]]].
  exists result, w'. split; [exact E|]. split; [|split].
  - apply (H Sample.enrolment); [simpl; auto|].
    split; [reflexivity | left; reflexivity].
  - intros Hin. apply (H Sample.last_term) in Hin; [|simpl; auto].
    destruct Hin as [Hexp _]. vm_compute in Hexp. discriminate Hexp.
  - intros Hin. apply (H Sample.science_fair) in Hin; [|simpl; auto].
    destruct Hin as [_ [Hs|[s [Hs Hle]]]]; [discriminate Hs|].
    injection Hs as <-. vm_compute in Hle. discriminate Hle.
Defined.

Lemma filter_all {A} (l : list A) : filter (fun _ => true) l = l.
Proof. induction l as [|x l IH]; simpl; congruence. Qed.

Lemma Permutation_filter_keep {A} (p : A -> bool) (l l' : list A) :
  Permutation l l' -> Permutation (filter p l) (filter p l').
Proof.
  induction 1 as [|x l l' H IH|x y l|l l' l'' H1 IH1 H2 IH2]; simpl.
  - constructor.
  - destruct (p x); [now constructor | exact IH].
  - destruct (p x), (p y); try reflexivity. apply perm_swap.
  - now transitivity (filter p l').
Qed.

Lemma filter_twice {A} (p q : A -> bool) (l : list A) :
  filter p (filter q l) = filter (fun x => q x && p x) l.
Proof.
  induction l as [|x l IH]; simpl; [reflexivity|].
  destruct (q x); simpl; [|exact IH].
  destruct (p x); now rewrite IH.
Qed.

(** C9. Both listings come newest-created first. The result of
    [get_active_announcements] holds the stored announcements that are
    active at the clock reading, each once, and the result
    [get_all_announcements] gives an authorized teacher holds every
    stored announcement, each once; and in both, every announcement has a
    [created_at] greater than or equal to that of every announcement
    after it. *)
Theorem listings_newest_first (w : World) :
  (exists (l : list Response) (w' : World),
      get_active_announcements w = (Ok l, w')
      /\ Permutation l
           (map to_response
              (filter
                 (fun a =>
                    not_expired (isoformat (current_instant w)) a
                    && started (isoformat (current_instant w)) a)
                 (announcements_collection w)))
      /\ StronglySorted newer_or_same l)
  /\ (forall u : string,
        authorized u w ->
        exists l : list Response,
          get_all_announcements (Some u) w = (Ok l, w)
          /\ Permutation l (map to_response (announcements_collection w))
          /\ StronglySorted newer_or_same l).
Proof.
  split.
  - eexists. eexists. split; [apply get_active_announcements_eq|]. split.
    + apply Permutation_map. rewrite <- filter_twice.
      apply Permutation_filter_keep, sort_created_at_desc_perm.
    + apply StronglySorted_to_response, StronglySorted_filter_keep,
        sort_created_at_desc_sorted.
  - intros u Hu. eexists. split; [now apply get_all_announcements_eq|].
    split.
    + rewrite filter_all.
      apply Permutation_map, sort_created_at_desc_perm.
    + apply StronglySorted_to_response, sort_created_at_desc_sorted.
Qed.

Lemma sample_authorized : authorized "mchen" Sample.school.
Proof. split; [discriminate|]. simpl. auto. Defined.

(** On the sample store list-all returns the three announcements,
    [enrolment] (created 15 October 2026) before [science_fair]
    (1 October 2026) before [last_term] (1 December 2025). *)
Lemma listings_newest_first_witness :
  exists l : list Response,
    get_all_announcements (Some "mchen") Sample.school
    = (Ok l, Sample.school)
    /\ Permutation l
         (map to_response [Sample.science_fair; Sample.last_term;
                           Sample.enrolment])
    /\ StronglySorted newer_or_same l
    /\ l = map to_response [Sample.enrolment; Sample.science_fair;
                            Sample.last_term].
Proof.
  destruct (proj2 (listings_newest_first Sample.school) "mchen"
              sample_authorized) as [l [E [P S]]].
  exists l. split; [exact E|]. split; [exact P|]. split; [exact S|].
  rewrite (get_all_announcements_eq "mchen" Sample.school sample_authorized)
    in E.
  injection E as <-. reflexivity.
Defined.

(* ================================================================== *)
(** ** Authentication *)
(* ================================================================== *)

(** C6. On [GET /announcements], [POST], [PUT] and [DELETE]: a requester
    identifier that is missing or empty gives 401 with
    "Authentication required for this action"; a non-empty one the
    Teacher Directory does not hold gives 401 with the different message
    "Invalid teacher credentials"; in both cases the world, the store
    included, is as it was. (The identifier can be missing on
    [GET /announcements] only: the other three take a [str].) *)
Theorem unauthorized_calls_fail_401
  (fromisoformat : string -> option datetime) (c : Call) (w : World) :
  c <> ListActive ->
  (truthy_opt (requester c) = false ->
   handle fromisoformat c w
   = (Raise (HTTPException 401 detail_auth_required), w))
  /\ (forall u : string,
        requester c = Some u -> truthy u = true ->
        ~ In u (teachers_collection w) ->
        handle fromisoformat c w
        = (Raise (HTTPException 401 detail_invalid_teacher), w))
  /\ detail_auth_required <> detail_invalid_teacher.
Proof.
  intros Hc. split; [|split].
  - intros H. apply handle_unauthenticated; [exact Hc|].
    now apply check_teacher_missing.
  - intros u E Hu Hin. apply handle_unauthenticated; [exact Hc|].
    rewrite E. now apply check_teacher_unknown.
  - discriminate.
Qed.

Lemma unauthorized_calls_fail_401_witness :
  handle Py37.fromisoformat (ListAll None) Sample.school
  = (Raise (HTTPException 401 detail_auth_required), Sample.school)
  /\ handle Py37.fromisoformat
       (Delete "000000000000000000000001" "ghost") Sample.school
     = (Raise (HTTPException 401 detail_invalid_teacher), Sample.school).
Proof.
  split.
  - apply (unauthorized_calls_fail_401 Py37.fromisoformat (ListAll None)
             Sample.school); [discriminate | reflexivity].
  - apply (unauthorized_calls_fail_401 Py37.fromisoformat
             (Delete "000000000000000000000001" "ghost") Sample.school)
      with (u := "ghost"); [discriminate | reflexivity | reflexivity |].
    simpl. intros [H|[H|[]]]; discriminate.
Defined.

(* ================================================================== *)
(** ** Looking documents up by identifier *)
(* ================================================================== *)

Lemma find_by_id_none (o : oid) (l : list Document) :
  (forall d, In d l -> _id d <> o) ->
  find (fun d => String.eqb (_id d) o) l = None.
Proof.
  induction l as [|x l IH]; simpl; [reflexivity|].
  intros H. destruct (String.eqb_spec (_id x) o) as [E|N].
  - exfalso. apply (H x); auto.
  - apply IH. intros d Hd. apply H. auto.
Qed.

Lemma find_by_id_some (o : oid) (l : list Document) (d : Document) :
  In d l -> _id d = o ->
  exists d', find (fun d => String.eqb (_id d) o) l = Some d'.
Proof.
  induction l as [|x l IH]; simpl; [tauto|].
  intros H E. destruct (String.eqb_spec (_id x) o) as [E'|N].
  - now exists x.
  - destruct H as [->|H]; [congruence|]. now apply IH.
Qed.

Lemma find_by_id_found (o : oid) (l : list Document) (d : Document) :
  find (fun d => String.eqb (_id d) o) l = Some d -> In d l /\ _id d = o.
Proof.
  intros H. apply find_some in H. destruct H as [H E].
  split; [exact H|]. now apply String.eqb_eq.
Qed.

Lemma remove_first_perm (o : oid) (l : list Document) (d : Document) :
  find (fun d => String.eqb (_id d) o) l = Some d ->
  Permutation l (d :: remove_first o l).
Proof.
  induction l as [|x l IH]; simpl; [discriminate|].
  destruct (String.eqb (_id x) o).
  - intros E. injection E as ->. reflexivity.
  - intros E. rewrite (IH E) at 1. apply perm_swap.
Qed.

(* ================================================================== *)
(** ** Delete *)
(* ================================================================== *)

(** C8. [delete_announcement] called by an authorized teacher: an
    identifier [ObjectId] refuses gives 400 "Invalid announcement ID"; a
    well-formed identifier no stored announcement carries gives 404
    "Announcement not found"; in both cases the world is as it was. When
    an announcement carries the identifier, the call returns
    "Announcement deleted successfully" and the store is the old one
    less one announcement with that identifier, so that, identifiers
    being unique, none is left under it. *)
Theorem delete_contract (w : World) (announcement_id u : string) :
  authorized u w ->
  (ObjectId announcement_id = None ->
   delete_announcement announcement_id u w
   = (Raise (HTTPException 400 detail_invalid_id), w))
  /\ (forall o : oid,
        ObjectId announcement_id = Some o ->
        (forall d, In d (announcements_collection w) -> _id d <> o) ->
        delete_announcement announcement_id u w
        = (Raise (HTTPException 404 detail_not_found), w))
  /\ (forall (o : oid) (d : Document),
        ObjectId announcement_id = Some o ->
        In d (announcements_collection w) -> _id d = o ->
        exists (w' : World) (gone : Document),
          delete_announcement announcement_id u w = (Ok detail_deleted, w')
          /\ _id gone = o
          /\ Permutation (announcements_collection w)
               (gone :: announcements_collection w')
          /\ teachers_collection w' = teachers_collection w
          /\ (NoDup (map _id (announcements_collection w)) ->
              forall x, In x (announcements_collection w') -> _id x <> o)).
Proof.
  intros Hu. pose proof (check_teacher_ok u w Hu) as Hc.
  unfold delete_announcement. rewrite (bind_ok _ _ _ _ _ Hc).
  split; [|split].
  - intros E. apply bind_raise. unfold parse_id. now rewrite E.
  - intros o E Hno.
    assert (P : parse_id announcement_id w = (Ok o, w))
      by (unfold parse_id; now rewrite E).
    rewrite (bind_ok _ _ _ _ _ P).
    unfold bind, delete_one. now rewrite (find_by_id_none o _ Hno).
  - intros o d E Hin Hid.
    assert (P : parse_id announcement_id w = (Ok o, w))
      by (unfold parse_id; now rewrite E).
    rewrite (bind_ok _ _ _ _ _ P).
    destruct (find_by_id_some o _ d Hin Hid) as [g Hg].
    unfold bind, delete_one. rewrite Hg. simpl.
    eexists. exists g. split; [reflexivity|].
    destruct (find_by_id_found o _ g Hg) as [_ Eg].
    pose proof (remove_first_perm o _ g Hg) as Hp.
    split; [exact Eg|]. split; [exact Hp|]. split; [reflexivity|].
    simpl. intros Hnd x Hx Ex.
    apply (Permutation_map _id) in Hp.
    apply (Permutation_NoDup Hp) in Hnd. simpl in Hnd.
    apply NoDup_cons_iff in Hnd. destruct Hnd as [Hnot _].
    apply Hnot. rewrite Eg. rewrite <- Ex at 1. apply in_map. exact Hx.
Qed.

Lemma delete_contract_witness :
  exists (w' : World) (gone : Document),
    delete_announcement "000000000000000000000002" "mchen" Sample.school
    = (Ok detail_deleted, w')
    /\ _id gone = "000000000000000000000002"
    /\ Permutation (announcements_collection Sample.school)
         (gone :: announcements_collection w')
    /\ teachers_collection w' = teachers_collection Sample.school
    /\ (NoDup (map _id (announcements_collection Sample.school)) ->
        forall x, In x (announcements_collection w') ->
                  _id x <> "000000000000000000000002").
Proof.
  apply (proj2 (proj2 (delete_contract Sample.school
                         "000000000000000000000002" "mchen"
                         sample_authorized))
           "000000000000000000000002" Sample.last_term).
  - reflexivity.
  - simpl. auto.
  - reflexivity.
Defined.

(* ================================================================== *)
(** ** Checking the expiration date *)
(* ================================================================== *)

Section Validation.

Variable fromisoformat : string -> option datetime.

Lemma check_expiration_run (e : string) (w : World) :
  check_expiration fromisoformat e w
  = match fromisoformat (replace_Z e) with
    | None => (Raise ValueError, w)
    | Some d =>
        match datetime_lt d (current_instant w) with
        | None => (Raise TypeError, tick w)
        | Some true => (Raise (HTTPException 400 detail_not_future), tick w)
        | Some false => (Ok d, tick w)
        end
    end.
Proof.
  unfold check_expiration, parse_date, bind.
  destruct (fromisoformat (replace_Z e)) as [d|]; [|reflexivity].
  simpl. fold (current_instant w). fold (tick w).
  destruct (datetime_lt d (current_instant w)) as [[|]|]; reflexivity.
Qed.

Lemma check_teacher_cases (r : option string) (w : World) :
  check_teacher r w = (Ok tt, w)
  \/ exists e, check_teacher r w = (Raise e, w).
Proof.
  destruct r as [u|]; simpl; [|right; eexists; reflexivity].
  unfold bind, raise_if, teachers_find_one.
  destruct (truthy u); simpl; [|right; eexists; reflexivity].
  destruct (find (String.eqb u) (teachers_collection w));
    [left | right; eexists]; reflexivity.
Qed.

Lemma find_update_first (o : oid) (g : Document -> Document)
  (l : list Document) (x : Document) :
  find (fun d => String.eqb (_id d) o) l = Some x ->
  _id (g x) = o ->
  find (fun d => String.eqb (_id d) o) (update_first o g l) = Some (g x).
Proof.
  intros H Hg. induction l as [|y l IH]; simpl in *; [discriminate|].
  destruct (String.eqb (_id y) o) eqn:E.
  - injection H as ->. simpl. rewrite Hg, String.eqb_refl. reflexivity.
  - simpl. rewrite E. auto.
Qed.

Lemma update_first_const (o : oid) (g : Document -> Document)
  (l : list Document) (x : Document) :
  find (fun d => String.eqb (_id d) o) l = Some x ->
  update_first o g l = update_first o (fun _ => g x) l.
Proof.
  induction l as [|y l IH]; simpl; [reflexivity|].
  destruct (String.eqb (_id y) o).
  - intros E. injection E as ->. reflexivity.
  - intros E. now rewrite IH.
Qed.

(** [update_announcement] step by step, for a requester that passes the
    teacher check and an identifier that names a stored announcement. *)
Lemma update_announcement_run (w : World) (announcement_id u : string)
  (req : AnnouncementUpdate.t) (o : oid) (existing : Document) :
  check_teacher (Some u) w = (Ok tt, w) ->
  ObjectId announcement_id = Some o ->
  find (fun d => String.eqb (_id d) o) (announcements_collection w)
  = Some existing ->
  update_announcement fromisoformat announcement_id req u w
  = match AnnouncementUpdate.expiration_date req with
    | None => apply_update o (update_doc_of req) existing w
    | Some e =>
        match fromisoformat (replace_Z e) with
        | None => (Raise (HTTPException 400 detail_date_format), w)
        | Some d =>
            match datetime_lt d (current_instant w) with
            | None => (Raise TypeError, tick w)
            | Some true =>
                (Raise (HTTPException 400 detail_not_future), tick w)
            | Some false =>
                apply_update o
                  (update_doc_of req ++ [(K_expiration_date, e)])
                  existing (tick w)
            end
        end
    end.
Proof.
  intros Hc Ho Hf. unfold update_announcement.
  rewrite (bind_ok _ _ _ _ _ Hc).
  assert (P : parse_id announcement_id w = (Ok o, w))
    by (unfold parse_id; now rewrite Ho).
  rewrite (bind_ok _ _ _ _ _ P).
  assert (F : find_one o w = (Ok (Some existing), w))
    by (unfold find_one; now rewrite Hf).
  rewrite (bind_ok _ _ _ _ _ F).
  assert (T : forall (ud : list (Key * string)) (w1 : World),
             announcements_collection w1 = announcements_collection w ->
             (raise_if (match ud with [] => true | _ => false end)
                (HTTPException 400 detail_no_fields) ;;
              result <- update_one o ud ;;
              raise_if ((snd result =? 0)%nat && (fst result =? 0)%nat)
                (HTTPException 500 detail_update_failed) ;;
              updated <- find_one o ;;
              match updated with
              | Some d => ret (to_response d)
              | None => raise AttributeError
              end) w1
             = apply_update o ud existing w1).
  { intros ud w1 Hw1. destruct ud as [|kv ud]; [reflexivity|].
    unfold bind, raise_if, update_one, find_one, apply_update. simpl.
    rewrite Hw1, Hf. simpl.
    rewrite andb_false_r. simpl.
    rewrite (find_update_first o _ _ existing Hf).
    - reflexivity.
    - simpl. now apply find_by_id_found in Hf. }
  unfold bind at 1. simpl.
  destruct (AnnouncementUpdate.expiration_date req) as [e|].
  - unfold bind at 1. unfold bind at 1.
    unfold try_except_ValueError, bind at 1.
    rewrite check_expiration_run.
    destruct (fromisoformat (replace_Z e)) as [d|]; [|reflexivity].
    destruct (datetime_lt d (current_instant w)) as [[|]|];
      try reflexivity.
    simpl. now apply T.
  - unfold bind at 1. simpl. now apply T.
Qed.

End Validation.

(* ================================================================== *)
(** ** Comparing datetimes *)
(* ================================================================== *)

Lemma cmp_fields_antisym (a b : list Z) :
  cmp_fields b a = CompOpp (cmp_fields a b).
Proof.
  revert b. induction a as [|x a IH]; intros [|y b]; simpl; try reflexivity.
  rewrite (Z.compare_antisym x y).
  destruct (x ?= y); simpl; auto.
Qed.

Lemma option_Z_eqb_sym (a b : option Z) :
  option_Z_eqb b a = option_Z_eqb a b.
Proof. destruct a, b; simpl; auto using Z.eqb_sym. Qed.

Lemma datetime_cmp_antisym (a b : datetime) :
  datetime_cmp b a = option_map CompOpp (datetime_cmp a b).
Proof.
  unfold datetime_cmp. rewrite option_Z_eqb_sym.
  destruct (option_Z_eqb (tzinfo a) (tzinfo b)).
  - unfold option_map. f_equal. apply cmp_fields_antisym.
  - destruct (tzinfo a), (tzinfo b); unfold option_map; try reflexivity.
    f_equal. apply Z.compare_antisym.
Qed.

(** [a < b] true makes [b < a] false, and both comparisons defined. *)
Lemma datetime_lt_flip (a b : datetime) :
  datetime_lt a b = Some true -> datetime_lt b a = Some false.
Proof.
  unfold datetime_lt. rewrite (datetime_cmp_antisym a b).
  destruct (datetime_cmp a b) as [[| |]|]; simpl; congruence.
Qed.

(** [start >= expiration] false is [start < expiration] true. *)
Lemma datetime_ge_false_lt (a b : datetime) :
  datetime_ge a b = Some false -> datetime_lt a b = Some true.
Proof.
  unfold datetime_ge, datetime_lt.
  destruct (datetime_cmp a b) as [[| |]|]; congruence.
Qed.

(** A naive datetime and an aware one do not compare. *)
Lemma datetime_lt_mixed (a b : datetime) :
  tzinfo a <> None -> tzinfo b = None -> datetime_lt a b = None.
Proof.
  unfold datetime_lt, datetime_cmp. intros Ha ->.
  destruct (tzinfo a); [reflexivity | congruence].
Qed.

Lemma datetime_ge_mixed (a b : datetime) :
  tzinfo a <> None -> tzinfo b = None -> datetime_ge a b = None.
Proof.
  unfold datetime_ge, datetime_cmp. intros Ha ->.
  destruct (tzinfo a); [reflexivity | congruence].
Qed.

(* ================================================================== *)
(** ** Update *)
(* ================================================================== *)

(** C4. [update_announcement] never compares the two dates: for an
    authorized teacher and a stored announcement, a request whose
    [expiration_date] parses and is strictly after the current instant,
    and which leaves [start_date] alone, succeeds whatever the stored
    [start_date] is; the stored announcement then has the new
    [expiration_date] next to the old [start_date]. *)
Theorem update_never_rechecks_ordering
  (fromisoformat : string -> option datetime) (w : World)
  (announcement_id u : string) (req : AnnouncementUpdate.t)
  (o : oid) (existing : Document) (e : string) (d : datetime) :
  authorized u w ->
  ObjectId announcement_id = Some o ->
  find (fun x => String.eqb (_id x) o) (announcements_collection w)
  = Some existing ->
  AnnouncementUpdate.expiration_date req = Some e ->
  AnnouncementUpdate.start_date req = None ->
  fromisoformat (replace_Z e) = Some d ->
  datetime_lt (current_instant w) d = Some true ->
  exists (resp : Response) (w' : World),
    update_announcement fromisoformat announcement_id req u w
    = (Ok resp, w')
    /\ expiration_date (fields resp) = e
    /\ start_date (fields resp) = start_date (doc existing)
    /\ find (fun x => String.eqb (_id x) o) (announcements_collection w')
       = Some (mk_document o (fields resp)).
Proof.
  intros Hu Ho Hf He Hs Hd Hlt.
  rewrite (update_announcement_run fromisoformat w announcement_id u req o
             existing (check_teacher_ok u w Hu) Ho Hf).
  rewrite He, Hd, (datetime_lt_flip _ _ Hlt).
  destruct (find_by_id_found o _ existing Hf) as [_ Eo].
  destruct req as [m s e']. simpl in He, Hs. subst s.
  unfold update_doc_of. simpl.
  destruct m as [m|]; simpl; (eexists; eexists; split; [reflexivity|]);
    simpl; (split; [reflexivity|]); (split; [reflexivity|]);
    (rewrite (find_update_first o _ _ existing Hf);
     [now rewrite <- Eo | exact Eo]).
Qed.

(** The science fair starts on 1 December; on 4 November its expiration
    is moved to 5 November, and the update goes through. *)
Lemma update_never_rechecks_ordering_witness :
  exists (resp : Response) (w' : World),
    update_announcement Py37.fromisoformat "000000000000000000000001"
      (Sample.only_expiration "2026-11-05T00:00:00") "mchen" Sample.school
    = (Ok resp, w')
    /\ expiration_date (fields resp) = "2026-11-05T00:00:00"
    /\ start_date (fields resp) = start_date (doc Sample.science_fair)
    /\ find (fun x => String.eqb (_id x) "000000000000000000000001")
         (announcements_collection w')
       = Some (mk_document "000000000000000000000001" (fields resp)).
Proof.
  apply (update_never_rechecks_ordering Py37.fromisoformat Sample.school
           "000000000000000000000001" "mchen"
           (Sample.only_expiration "2026-11-05T00:00:00")
           "000000000000000000000001" Sample.science_fair
           "2026-11-05T00:00:00" (naive 2026 11 5 0 0 0 0)
           sample_authorized);
    reflexivity.
Defined.

(** Whenever [update_announcement] succeeds, the identifier is
    well-formed and names a stored announcement, and the announcement
    returned is that one with the supplied fields replaced. *)
Lemma update_success_merges
  (fromisoformat : string -> option datetime) (w w' : World)
  (announcement_id u : string) (req : AnnouncementUpdate.t)
  (resp : Response) :
  update_announcement fromisoformat announcement_id req u w = (Ok resp, w') ->
  exists (o : oid) (existing : Document),
    ObjectId announcement_id = Some o
    /\ find (fun x => String.eqb (_id x) o) (announcements_collection w)
       = Some existing
    /\ id resp = str_oid (_id existing)
    /\ message (fields resp)
       = supplied_or (AnnouncementUpdate.message req) (message (doc existing))
    /\ start_date (fields resp)
       = match AnnouncementUpdate.start_date req with
         | Some s => Some s
         | None => start_date (doc existing)
         end
    /\ expiration_date (fields resp)
       = supplied_or (AnnouncementUpdate.expiration_date req)
           (expiration_date (doc existing))
    /\ created_by (fields resp) = created_by (doc existing)
    /\ created_at (fields resp) = created_at (doc existing)
    /\ announcements_collection w'
       = update_first o
           (fun _ => mk_document (_id existing) (fields resp))
           (announcements_collection w).
Proof.
  intros H.
  destruct (check_teacher_cases (Some u) w) as [Hc|[x Hc]].
  2:{ unfold update_announcement in H.
      rewrite (bind_raise _ _ _ _ _ Hc) in H. discriminate. }
  destruct (ObjectId announcement_id) as [o|] eqn:Ho.
  2:{ unfold update_announcement in H.
      rewrite (bind_ok _ _ _ _ _ Hc) in H.
      unfold bind at 1, parse_id in H. rewrite Ho in H. discriminate. }
  destruct (find (fun x => String.eqb (_id x) o)
              (announcements_collection w)) as [existing|] eqn:Hf.
  2:{ unfold update_announcement in H.
      rewrite (bind_ok _ _ _ _ _ Hc) in H.
      unfold bind at 1, parse_id in H. rewrite Ho in H.
      unfold bind at 1, find_one in H. simpl in H. rewrite Hf in H.
      discriminate. }
  exists o, existing. split; [reflexivity|]. split; [exact Hf|].
  rewrite (update_announcement_run fromisoformat w announcement_id u req o
             existing Hc Ho Hf) in H.
  destruct req as [m s e]. simpl in *.
  assert (G : forall ud w1,
             announcements_collection w1 = announcements_collection w ->
             apply_update o ud existing w1 = (Ok resp, w') ->
             resp = to_response (apply_set ud existing)
             /\ announcements_collection w'
                = update_first o
                    (fun _ => mk_document (_id existing) (fields resp))
                    (announcements_collection w)).
  { intros ud w1 Hw1 Hr. unfold apply_update in Hr.
    destruct ud as [|kv ud]; [discriminate|].
    injection Hr as Hr1 Hr2. subst resp w'. split; [reflexivity|].
    simpl. rewrite Hw1.
    now rewrite (update_first_const o _ _ existing Hf). }
  destruct e as [e|].
  - destruct (fromisoformat (replace_Z e)) as [d|]; [|discriminate].
    destruct (datetime_lt d (current_instant w)) as [[|]|];
      try discriminate.
    apply G in H; [|reflexivity]. destruct H as [-> Hs].
    split; [reflexivity|].
    destruct m, s; simpl in *; repeat split; exact Hs.
  - apply G in H; [|reflexivity]. destruct H as [-> Hs].
    split; [reflexivity|].
    destruct m, s; simpl in *; repeat split; exact Hs.
Qed.

(** C5. [update_announcement] merges. A request that supplies only a
    [message], from an authorized teacher and for a stored announcement,
    succeeds and returns the announcement with the new [message] and the
    [start_date] and [expiration_date] it had. And whenever
    [update_announcement] succeeds, the announcement returned has the
    [id], [created_by] and [created_at] of the stored one, and for each of
    [message], [start_date] and [expiration_date] the value of the
    request when it supplies one and the stored value otherwise; the
    store differs from the old one in that announcement only. *)
Theorem update_merges
  (fromisoformat : string -> option datetime) (w : World)
  (announcement_id u : string) (req : AnnouncementUpdate.t) :
  (forall (m : string) (o : oid) (existing : Document),
      authorized u w ->
      ObjectId announcement_id = Some o ->
      find (fun x => String.eqb (_id x) o) (announcements_collection w)
      = Some existing ->
      req = AnnouncementUpdate.mk (Some m) None None ->
      exists (resp : Response) (w' : World),
        update_announcement fromisoformat announcement_id req u w
        = (Ok resp, w')
        /\ message (fields resp) = m
        /\ start_date (fields resp) = start_date (doc existing)
        /\ expiration_date (fields resp) = expiration_date (doc existing))
  /\ (forall (resp : Response) (w' : World),
        update_announcement fromisoformat announcement_id req u w
        = (Ok resp, w') ->
        exists (o : oid) (existing : Document),
          ObjectId announcement_id = Some o
          /\ find (fun x => String.eqb (_id x) o)
               (announcements_collection w) = Some existing
          /\ id resp = str_oid (_id existing)
          /\ message (fields resp)
             = supplied_or (AnnouncementUpdate.message req)
                 (message (doc existing))
          /\ start_date (fields resp)
             = match AnnouncementUpdate.start_date req with
               | Some s => Some s
               | None => start_date (doc existing)
               end
          /\ expiration_date (fields resp)
             = supplied_or (AnnouncementUpdate.expiration_date req)
                 (expiration_date (doc existing))
          /\ created_by (fields resp) = created_by (doc existing)
          /\ created_at (fields resp) = created_at (doc existing)
          /\ announcements_collection w'
             = update_first o
                 (fun _ => mk_document (_id existing) (fields resp))
                 (announcements_collection w)).
Proof.
  split.
  - intros m o existing Hu Ho Hf ->.
    rewrite (update_announcement_run fromisoformat w announcement_id u _ o
               existing (check_teacher_ok u w Hu) Ho Hf).
    simpl. eexists. eexists. split; [reflexivity|]. repeat split.
  - intros resp w' H.
    exact (update_success_merges fromisoformat w w' announcement_id u req
             resp H).
Qed.

Lemma update_merges_witness :
  exists (resp : Response) (w' : World),
    update_announcement Py37.fromisoformat "000000000000000000000001"
      (Sample.only_message "Science fair, in the gym") "mchen" Sample.school
    = (Ok resp, w')
    /\ message (fields resp) = "Science fair, in the gym"
    /\ start_date (fields resp) = Some "2026-12-01T00:00:00"
    /\ expiration_date (fields resp) = "2026-12-31T00:00:00"
    /\ created_by (fields resp) = "mrodriguez".
Proof.
  destruct (update_merges Py37.fromisoformat Sample.school
              "000000000000000000000001" "mchen"
              (Sample.only_message "Science fair, in the gym"))
    as [Hfirst Hsecond].
  destruct (Hfirst "Science fair, in the gym" "000000000000000000000001"
              Sample.science_fair sample_authorized)
    as [resp [w' [E [Hm [Hs He]]]]]; try reflexivity.
  exists resp, w'. split; [exact E|].
  destruct (Hsecond resp w' E)
    as [o [existing [Ho [Hf [_ [_ [_ [_ [Hby _]]]]]]]]].
  vm_compute in Ho. injection Ho as <-.
  vm_compute in Hf. injection Hf as <-.
  rewrite Hm, Hs, He, Hby. repeat split.
Defined.

(* ================================================================== *)
(** ** Create *)
(* ================================================================== *)

Section CreateRun.

Variable fromisoformat : string -> option datetime.

(** [create_announcement] step by step, for a requester that passes the
    teacher check. *)
Lemma create_announcement_run (a : AnnouncementCreate.t) (u : string)
  (w : World) :
  check_teacher (Some u) w = (Ok tt, w) ->
  create_announcement fromisoformat a u w
  = match fromisoformat (replace_Z (AnnouncementCreate.expiration_date a))
    with
    | None => (Raise (HTTPException 400 detail_date_format), w)
    | Some d =>
        match datetime_lt d (current_instant w) with
        | None => (Raise TypeError, tick w)
        | Some true => (Raise (HTTPException 400 detail_not_future), tick w)
        | Some false =>
            if truthy_opt (AnnouncementCreate.start_date a) then
              match option_map (fun s => fromisoformat (replace_Z s))
                      (AnnouncementCreate.start_date a) with
              | Some (Some ds) =>
                  match datetime_ge ds d with
                  | None => (Raise TypeError, tick w)
                  | Some true =>
                      (Raise (HTTPException 400 detail_start_order), tick w)
                  | Some false => insert_announcement a u (tick w)
                  end
              | _ => (Raise (HTTPException 400 detail_date_format), tick w)
              end
            else insert_announcement a u (tick w)
        end
    end.
Proof.
  intros Hc. unfold create_announcement.
  rewrite (bind_ok _ _ _ _ _ Hc).
  fold (insert_announcement a u).
  unfold bind at 1, try_except_ValueError, bind at 1.
  rewrite check_expiration_run.
  destruct (fromisoformat (replace_Z (AnnouncementCreate.expiration_date a)))
    as [d|]; [|reflexivity].
  destruct (datetime_lt d (current_instant w)) as [[|]|]; try reflexivity.
  destruct (AnnouncementCreate.start_date a) as [s|]; simpl;
    [|reflexivity].
  destruct (truthy s); [|reflexivity].
  unfold parse_date, bind.
  destruct (fromisoformat (replace_Z s)) as [ds|]; [|reflexivity].
  simpl. destruct (datetime_ge ds d) as [[|]|]; reflexivity.
Qed.

Lemma insert_announcement_run (a : AnnouncementCreate.t) (u : string)
  (w : World) :
  insert_announcement a u w
  = let f :=
      mk_fields (AnnouncementCreate.message a)
        (AnnouncementCreate.start_date a)
        (AnnouncementCreate.expiration_date a) u
        (isoformat (current_instant w)) in
    let o := hex_fill 24 (next_oid w) in
    (Ok (mk_response o f),
     mk_world (announcements_collection w ++ [mk_document o f])
       (teachers_collection w) (clock w) (S (ticks w))
       (N.succ (next_oid w))).
Proof. reflexivity. Qed.

End CreateRun.

(* ================================================================== *)
(** ** The ordering of the two dates *)
(* ================================================================== *)

Section Ordering.

Variable fromisoformat : string -> option datetime.

Lemma Forall_update_first (o : oid) (g : Document -> Document)
  (l : list Document) :
  (forall x, ordered fromisoformat x -> ordered fromisoformat (g x)) ->
  Forall (ordered fromisoformat) l ->
  Forall (ordered fromisoformat) (update_first o g l).
Proof.
  intros Hg. induction 1 as [|x l Hx Hl IH]; simpl; [constructor|].
  destruct (String.eqb (_id x) o); constructor; auto.
Qed.

Lemma Forall_remove_first (o : oid) (l : list Document) :
  Forall (ordered fromisoformat) l ->
  Forall (ordered fromisoformat) (remove_first o l).
Proof.
  induction 1 as [|x l Hx Hl IH]; simpl; [constructor|].
  destruct (String.eqb (_id x) o); [exact Hl|]. now constructor.
Qed.

Lemma list_all_keeps_world (r : option string) (w : World) :
  snd (get_all_announcements r w) = w.
Proof.
  unfold get_all_announcements.
  destruct (check_teacher_cases r w) as [H|[e H]].
  - now rewrite (bind_ok _ _ _ _ _ H).
  - now rewrite (bind_raise _ _ _ _ _ H).
Qed.

Lemma snd_bind_ret {A B} (m : M A) (f : A -> B) (w : World) :
  snd ((x <- m ;; ret (f x)) w) = snd (m w).
Proof. unfold bind. now destruct (m w) as [[a|e] w1]. Qed.

Lemma create_keeps_order (a : AnnouncementCreate.t) (u : string)
  (w : World) :
  AnnouncementCreate.start_date a <> Some EmptyString ->
  dates_ordered fromisoformat w ->
  dates_ordered fromisoformat (snd (create_announcement fromisoformat a u w)).
Proof.
  intros Hs Hw.
  destruct (check_teacher_cases (Some u) w) as [H|[e H]].
  2:{ unfold create_announcement. now rewrite (bind_raise _ _ _ _ _ H). }
  rewrite (create_announcement_run fromisoformat a u w H).
  destruct (fromisoformat (replace_Z (AnnouncementCreate.expiration_date a)))
    as [d|] eqn:Ed; [|exact Hw].
  destruct (datetime_lt d (current_instant w)) as [[|]|]; try exact Hw.
  assert (K : start_before_expiration fromisoformat
                (mk_fields (AnnouncementCreate.message a)
                   (AnnouncementCreate.start_date a)
                   (AnnouncementCreate.expiration_date a) u
                   (isoformat (current_instant (tick w)))) = true ->
              dates_ordered fromisoformat
                (snd (insert_announcement a u (tick w)))).
  { intros K. rewrite insert_announcement_run. simpl.
    unfold dates_ordered. simpl. apply Forall_app. split; [exact Hw|].
    constructor; [exact K | constructor]. }
  destruct (AnnouncementCreate.start_date a) as [s|] eqn:Es;
    unfold truthy_opt, option_map.
  - assert (Ht : truthy s = true) by (destruct s; [congruence|reflexivity]).
    rewrite Ht.
    destruct (fromisoformat (replace_Z s)) as [ds|] eqn:Eds; [|exact Hw].
    destruct (datetime_ge ds d) as [[|]|] eqn:Ege; try exact Hw.
    apply K. unfold start_before_expiration.
    cbn [start_date expiration_date].
    now rewrite Eds, Ed, (datetime_ge_false_lt _ _ Ege).
  - now apply K.
Qed.

Lemma update_keeps_order (i u : string) (a : AnnouncementUpdate.t)
  (w : World) :
  AnnouncementUpdate.start_date a = None ->
  AnnouncementUpdate.expiration_date a = None ->
  dates_ordered fromisoformat w ->
  dates_ordered fromisoformat
    (snd (update_announcement fromisoformat i a u w)).
Proof.
  intros Hs He Hw.
  destruct (check_teacher_cases (Some u) w) as [H|[e H]].
  2:{ unfold update_announcement. now rewrite (bind_raise _ _ _ _ _ H). }
  destruct (ObjectId i) as [o|] eqn:Ho.
  2:{ unfold update_announcement. rewrite (bind_ok _ _ _ _ _ H).
      unfold bind at 1, parse_id. now rewrite Ho. }
  destruct (find (fun x => String.eqb (_id x) o)
              (announcements_collection w)) as [existing|] eqn:Hf.
  2:{ unfold update_announcement. rewrite (bind_ok _ _ _ _ _ H).
      unfold bind at 1, parse_id. rewrite Ho.
      unfold bind at 1, find_one. simpl. now rewrite Hf. }
  rewrite (update_announcement_run fromisoformat w i u a o existing H Ho Hf).
  rewrite He. unfold update_doc_of. rewrite Hs.
  destruct (AnnouncementUpdate.message a) as [m|]; simpl; [|exact Hw].
  unfold dates_ordered. simpl. apply Forall_update_first; [|exact Hw].
  intros x Hx. exact Hx.
Qed.

Lemma delete_keeps_order (i u : string) (w : World) :
  dates_ordered fromisoformat w ->
  dates_ordered fromisoformat (snd (delete_announcement i u w)).
Proof.
  intros Hw. unfold delete_announcement.
  destruct (check_teacher_cases (Some u) w) as [H|[e H]].
  2:{ now rewrite (bind_raise _ _ _ _ _ H). }
  rewrite (bind_ok _ _ _ _ _ H).
  unfold bind, parse_id, delete_one.
  destruct (ObjectId i) as [o|]; simpl; [|exact Hw].
  destruct (find (fun d => String.eqb (_id d) o)
              (announcements_collection w)); simpl; [|exact Hw].
  unfold dates_ordered. simpl. now apply Forall_remove_first.
Qed.

(** C3, amended. The listings, [delete_announcement],
    [create_announcement] given a [start_date] that is absent or not
    empty, and [update_announcement] given neither date, keep the store
    one in which every announcement with a [start_date] has it strictly
    before its [expiration_date]. *)
Theorem checked_calls_keep_dates_ordered (c : Call) (w : World) :
  ordering_kept c ->
  dates_ordered fromisoformat w ->
  dates_ordered fromisoformat (snd (handle fromisoformat c w)).
Proof.
  intros Hc Hw. destruct c as [|r|a u|i a u|i u]; unfold handle;
    rewrite snd_bind_ret.
  - exact Hw.
  - now rewrite list_all_keeps_world.
  - now apply create_keeps_order.
  - destruct Hc as [Hs He]. now apply update_keeps_order.
  - now apply delete_keeps_order.
Qed.

End Ordering.

Lemma sample_dates_ordered : dates_ordered Py37.fromisoformat Sample.school.
Proof. repeat constructor. Defined.

Lemma checked_calls_keep_dates_ordered_witness :
  dates_ordered Py37.fromisoformat
    (snd (handle Py37.fromisoformat (Create Sample.winter_concert "mchen")
            Sample.school)).
Proof.
  apply (checked_calls_keep_dates_ordered Py37.fromisoformat
           (Create Sample.winter_concert "mchen") Sample.school).
  - simpl. discriminate.
  - exact sample_dates_ordered.
Defined.

(** C3 as stated fails: in the sample store every announcement with a
    [start_date] has it before its [expiration_date]; after the update
    that moves the expiration of the science fair to 5 November, its
    start, 1 December, is after its expiration. *)
Lemma update_breaks_dates_ordered :
  dates_ordered Py37.fromisoformat Sample.school
  /\ ~ dates_ordered Py37.fromisoformat
         (snd (handle Py37.fromisoformat
                 (Update "000000000000000000000001"
                    (Sample.only_expiration "2026-11-05T00:00:00") "mchen")
                 Sample.school)).
Proof.
  split; [exact sample_dates_ordered|].
  intros H. unfold dates_ordered in H. rewrite Forall_forall in H.
  assert (K : ordered Py37.fromisoformat
                (mk_document "000000000000000000000001"
                   (mk_fields "Science fair" (Some "2026-12-01T00:00:00")
                      "2026-11-05T00:00:00" "mrodriguez"
                      "2026-10-01T09:00:00"))).
  { apply H. vm_compute. left. reflexivity. }
  vm_compute in K. discriminate K.
Qed.

(* ================================================================== *)
(** ** The boundary of the expiration check *)
(* ================================================================== *)

(** C2, at the boundary. The sample clock shows 2026-11-04T12:00:00, and
    an [expiration_date] of exactly that instant is not rejected: the
    test is [expiration < datetime.now()]. [create_announcement] inserts
    the announcement and [update_announcement] stores the date. *)
Theorem expiration_at_current_instant_is_accepted :
  Py37.fromisoformat (replace_Z "2026-11-04T12:00:00")
  = Some (current_instant Sample.school)
  /\ (exists (resp : Response) (w' : World),
        create_announcement Py37.fromisoformat Sample.assembly_at_noon
          "mchen" Sample.school = (Ok resp, w')
        /\ expiration_date (fields resp) = "2026-11-04T12:00:00"
        /\ In (mk_document (id resp) (fields resp))
             (announcements_collection w'))
  /\ (exists (resp : Response) (w' : World),
        update_announcement Py37.fromisoformat "000000000000000000000001"
          (Sample.only_expiration "2026-11-04T12:00:00") "mchen"
          Sample.school = (Ok resp, w')
        /\ expiration_date (fields resp) = "2026-11-04T12:00:00").
Proof.
  split; [reflexivity|]. split.
  - eexists. eexists. split; [vm_compute; reflexivity|].
    split; [reflexivity|]. simpl. auto 10.
  - eexists. eexists. split; [vm_compute; reflexivity|]. reflexivity.
Qed.

(* ================================================================== *)
(** ** Offsets *)
(* ================================================================== *)

Section Offsets.

Variable fromisoformat : string -> option datetime.

Lemma current_instant_naive (w : World) : tzinfo (current_instant w) = None.
Proof. reflexivity. Qed.

(** An expiration date that parses to an aware datetime makes
    [create_announcement] raise [TypeError] at the comparison with
    [datetime.now()]. *)
Lemma create_aware_expiration (a : AnnouncementCreate.t) (u : string)
  (w : World) (d : datetime) :
  authorized u w ->
  fromisoformat (replace_Z (AnnouncementCreate.expiration_date a)) = Some d ->
  tzinfo d <> None ->
  create_announcement fromisoformat a u w = (Raise TypeError, tick w).
Proof.
  intros Hu Hd Htz.
  rewrite (create_announcement_run fromisoformat a u w
             (check_teacher_ok u w Hu)), Hd.
  now rewrite (datetime_lt_mixed d _ Htz (current_instant_naive w)).
Qed.

Lemma update_aware_expiration (i u : string) (req : AnnouncementUpdate.t)
  (w : World) (o : oid) (existing : Document) (e : string) (d : datetime) :
  authorized u w ->
  ObjectId i = Some o ->
  find (fun x => String.eqb (_id x) o) (announcements_collection w)
  = Some existing ->
  AnnouncementUpdate.expiration_date req = Some e ->
  fromisoformat (replace_Z e) = Some d ->
  tzinfo d <> None ->
  update_announcement fromisoformat i req u w = (Raise TypeError, tick w).
Proof.
  intros Hu Ho Hf He Hd Htz.
  rewrite (update_announcement_run fromisoformat w i u req o existing
             (check_teacher_ok u w Hu) Ho Hf), He, Hd.
  now rewrite (datetime_lt_mixed d _ Htz (current_instant_naive w)).
Qed.

(** Past expiration dates are refused, when they parse to a naive
    datetime. *)
Lemma create_past_expiration (a : AnnouncementCreate.t) (u : string)
  (w : World) (d : datetime) :
  authorized u w ->
  fromisoformat (replace_Z (AnnouncementCreate.expiration_date a)) = Some d ->
  datetime_lt d (current_instant w) = Some true ->
  create_announcement fromisoformat a u w
  = (Raise (HTTPException 400 detail_not_future), tick w).
Proof.
  intros Hu Hd Hlt.
  now rewrite (create_announcement_run fromisoformat a u w
                 (check_teacher_ok u w Hu)), Hd, Hlt.
Qed.

(** A start date at or after the expiration date is refused, and one that
    does not parse, when the expiration date is naive and not past. *)
Lemma create_start_not_before_expiration (a : AnnouncementCreate.t)
  (u s : string) (w : World) (d : datetime) :
  authorized u w ->
  fromisoformat (replace_Z (AnnouncementCreate.expiration_date a)) = Some d ->
  datetime_lt d (current_instant w) = Some false ->
  AnnouncementCreate.start_date a = Some s ->
  truthy s = true ->
  match fromisoformat (replace_Z s) with
  | None =>
      create_announcement fromisoformat a u w
      = (Raise (HTTPException 400 detail_date_format), tick w)
  | Some ds =>
      datetime_ge ds d = Some true ->
      create_announcement fromisoformat a u w
      = (Raise (HTTPException 400 detail_start_order), tick w)
  end.
Proof.
  intros Hu Hd Hlt Hs Ht.
  rewrite (create_announcement_run fromisoformat a u w
             (check_teacher_ok u w Hu)), Hd, Hlt, Hs.
  unfold truthy_opt, option_map. rewrite Ht.
  destruct (fromisoformat (replace_Z s)) as [ds|]; [|reflexivity].
  now intros ->.
Qed.

End Offsets.

(** C7, where it fails. A [start_date] with an offset next to an
    [expiration_date] without one makes the comparison
    [start >= expiration] raise [TypeError], which no handler catches:
    the request is not answered with a 400, although its start is after
    its expiration. And an empty [start_date], which does not parse, is
    skipped by [if announcement.start_date:] and stored as it is. *)
Theorem start_date_check_misses :
  create_announcement Py37.fromisoformat Sample.graduation "mchen"
    Sample.school
  = (Raise TypeError, tick Sample.school)
  /\ Py37.fromisoformat (replace_Z "") = None
  /\ (exists (resp : Response) (w' : World),
        create_announcement Py37.fromisoformat Sample.open_day "mchen"
          Sample.school = (Ok resp, w')
        /\ start_date (fields resp) = Some ""
        /\ In (mk_document (id resp) (fields resp))
             (announcements_collection w')).
Proof.
  split; [reflexivity|]. split; [reflexivity|].
  eexists. eexists. split; [vm_compute; reflexivity|].
  split; [reflexivity|]. simpl. auto 10.
Qed.

(** C10. The expiration date ["2999-01-01T00:00:00Z"] is rewritten to
    ["2999-01-01T00:00:00+00:00"], which parses to a datetime with a UTC
    offset. Given it by an authorized teacher, [create_announcement], and
    [update_announcement] on a stored announcement, end with a
    [TypeError], raised where the aware datetime is compared with the
    naive [datetime.now()]: neither a return nor an [HTTPException]. The
    store is as it was. *)
Theorem offset_expiration_raises_TypeError (w : World) (u : string) :
  authorized u w ->
  Py37.fromisoformat (replace_Z Sample.zulu)
  = Some (mk_datetime 2999 1 1 0 0 0 0 (Some 0))
  /\ (forall a : AnnouncementCreate.t,
        AnnouncementCreate.expiration_date a = Sample.zulu ->
        create_announcement Py37.fromisoformat a u w
        = (Raise TypeError, tick w))
  /\ (forall (i : string) (req : AnnouncementUpdate.t) (o : oid)
             (existing : Document),
        ObjectId i = Some o ->
        find (fun x => String.eqb (_id x) o) (announcements_collection w)
        = Some existing ->
        AnnouncementUpdate.expiration_date req = Some Sample.zulu ->
        update_announcement Py37.fromisoformat i req u w
        = (Raise TypeError, tick w))
  /\ announcements_collection (tick w) = announcements_collection w.
Proof.
  intros Hu.
  assert (P : Py37.fromisoformat (replace_Z Sample.zulu)
              = Some (mk_datetime 2999 1 1 0 0 0 0 (Some 0)))
    by reflexivity.
  split; [exact P|]. split; [|split; [|reflexivity]].
  - intros a Ha.
    apply (create_aware_expiration Py37.fromisoformat a u w
             (mk_datetime 2999 1 1 0 0 0 0 (Some 0)) Hu).
    + rewrite Ha. exact P.
    + discriminate.
  - intros i req o existing Ho Hf He.
    now apply (update_aware_expiration Py37.fromisoformat i u req w o
                 existing Sample.zulu
                 (mk_datetime 2999 1 1 0 0 0 0 (Some 0)) Hu Ho Hf He P).
Qed.

Lemma offset_expiration_raises_TypeError_witness :
  create_announcement Py37.fromisoformat
    (AnnouncementCreate.mk "Reunion" None Sample.zulu) "mchen" Sample.school
  = (Raise TypeError, tick Sample.school)
  /\ update_announcement Py37.fromisoformat "000000000000000000000003"
       (Sample.only_expiration Sample.zulu) "mchen" Sample.school
     = (Raise TypeError, tick Sample.school).
Proof.
  destruct (offset_expiration_raises_TypeError Sample.school "mchen"
              sample_authorized) as [_ [Hc [Hupd _]]].
  split.
  - apply Hc. reflexivity.
  - apply (Hupd "000000000000000000000003" _ "000000000000000000000003"
             Sample.enrolment); reflexivity.
Defined.

(* ================================================================== *)
(** ** Outcomes of the three writing endpoints *)
(* ================================================================== *)

Section Outcomes.

Variable fromisoformat : string -> option datetime.

(** [create_announcement], whatever it is given: it fails and the world
    keeps its store, or it succeeds and the store has one more document,
    the one it returns. The Teacher Directory is as it was either way. *)
Lemma create_outcome (a : AnnouncementCreate.t) (u : string) (w : World) :
  teachers_collection (snd (create_announcement fromisoformat a u w))
  = teachers_collection w
  /\ ((exists e,
         fst (create_announcement fromisoformat a u w) = Raise e
         /\ store_after (create_announcement fromisoformat a u w)
            = announcements_collection w)
      \/ (exists resp,
            fst (create_announcement fromisoformat a u w) = Ok resp
            /\ store_after (create_announcement fromisoformat a u w)
               = (announcements_collection w
                  ++ [mk_document (id resp) (fields resp)])%list
            /\ authorized u w)).
Proof.
  destruct (check_teacher_cases (Some u) w) as [H|[e H]].
  2:{ unfold create_announcement. rewrite (bind_raise _ _ _ _ _ H).
      split; [reflexivity|]. left. now exists e. }
  assert (Hu : authorized u w).
  { unfold check_teacher, bind, raise_if, teachers_find_one in H.
    destruct (truthy u) eqn:Tu; simpl in H; [|discriminate].
    destruct (find (String.eqb u) (teachers_collection w)) as [t|] eqn:F;
      [|discriminate].
    apply find_some in F. destruct F as [Hin Heq].
    apply String.eqb_eq in Heq. subst t.
    split; [now apply truthy_nonempty | exact Hin]. }
  rewrite (create_announcement_run fromisoformat a u w H).
  assert (K : teachers_collection (snd (insert_announcement a u (tick w)))
              = teachers_collection w
              /\ ((exists e,
                     fst (insert_announcement a u (tick w)) = Raise e
                     /\ store_after (insert_announcement a u (tick w))
                        = announcements_collection w)
                  \/ (exists resp,
                        fst (insert_announcement a u (tick w)) = Ok resp
                        /\ store_after (insert_announcement a u (tick w))
                           = (announcements_collection w
                              ++ [mk_document (id resp) (fields resp)])%list
                        /\ authorized u w))).
  { rewrite insert_announcement_run. split; [reflexivity|]. right.
    eexists. split; [reflexivity|]. split; [reflexivity | exact Hu]. }
  assert (R : forall (e : Exn) (w1 : World),
             teachers_collection w1 = teachers_collection w ->
             announcements_collection w1 = announcements_collection w ->
             teachers_collection (snd (@Raise Response e, w1))
             = teachers_collection w
             /\ ((exists e',
                    fst (@Raise Response e, w1) = Raise e'
                    /\ store_after (@Raise Response e, w1)
                       = announcements_collection w)
                 \/ (exists resp,
                       fst (@Raise Response e, w1) = Ok resp
                       /\ store_after (@Raise Response e, w1)
                          = (announcements_collection w
                             ++ [mk_document (id resp) (fields resp)])%list
                       /\ authorized u w))).
  { intros e w1 Ht Hs. split; [exact Ht|]. left. exists e.
    split; [reflexivity | exact Hs]. }
  destruct (fromisoformat (replace_Z (AnnouncementCreate.expiration_date a)))
    as [d|]; [|now apply R].
  destruct (datetime_lt d (current_instant w)) as [[|]|]; try now apply R.
  destruct (truthy_opt (AnnouncementCreate.start_date a)); [|exact K].
  destruct (option_map (fun s => fromisoformat (replace_Z s))
              (AnnouncementCreate.start_date a)) as [[ds|]|];
    try now apply R.
  destruct (datetime_ge ds d) as [[|]|]; try now apply R.
  exact K.
Qed.

Lemma fold_set_field_birth (ud : list (Key * string)) (f : Fields) :
  created_by (fold_left set_field ud f) = created_by f
  /\ created_at (fold_left set_field ud f) = created_at f.
Proof.
  revert f. induction ud as [|[k v] ud IH]; intros f; [split; reflexivity|].
  change (fold_left set_field ((k, v) :: ud) f)
    with (fold_left set_field ud (set_field f (k, v))).
  destruct (IH (set_field f (k, v))) as [H1 H2]. rewrite H1, H2.
  destruct k; split; reflexivity.
Qed.

Lemma update_first_birth (o : oid) (ud : list (Key * string))
  (l : list Document) :
  map birth (update_first o (apply_set ud) l) = map birth l.
Proof.
  induction l as [|x l IH]; simpl; [reflexivity|].
  destruct (String.eqb (_id x) o); simpl.
  - f_equal. unfold birth. simpl.
    destruct (fold_set_field_birth ud (doc x)) as [-> ->]. reflexivity.
  - now rewrite IH.
Qed.

Lemma update_invalid_id (i u : string) (req : AnnouncementUpdate.t)
  (w : World) :
  check_teacher (Some u) w = (Ok tt, w) ->
  ObjectId i = None ->
  update_announcement fromisoformat i req u w
  = (Raise (HTTPException 400 detail_invalid_id), w).
Proof.
  intros H Ho. unfold update_announcement. rewrite (bind_ok _ _ _ _ _ H).
  unfold bind at 1, parse_id. now rewrite Ho.
Qed.

Lemma update_not_found (i u : string) (req : AnnouncementUpdate.t)
  (w : World) (o : oid) :
  check_teacher (Some u) w = (Ok tt, w) ->
  ObjectId i = Some o ->
  find (fun x => String.eqb (_id x) o) (announcements_collection w) = None ->
  update_announcement fromisoformat i req u w
  = (Raise (HTTPException 404 detail_not_found), w).
Proof.
  intros H Ho Hf. unfold update_announcement. rewrite (bind_ok _ _ _ _ _ H).
  unfold bind at 1, parse_id. rewrite Ho.
  unfold bind at 1, find_one. simpl. now rewrite Hf.
Qed.

(** [update_announcement], whatever it is given: the Teacher Directory is
    as it was; the stored announcements are the same ones, in the same
    places, with the identifiers, authors and creation stamps they had;
    and when it fails the store is as it was. *)
Lemma update_outcome (i u : string) (req : AnnouncementUpdate.t)
  (w : World) :
  teachers_collection (snd (update_announcement fromisoformat i req u w))
  = teachers_collection w
  /\ map birth (store_after (update_announcement fromisoformat i req u w))
     = map birth (announcements_collection w)
  /\ (forall e,
        fst (update_announcement fromisoformat i req u w) = Raise e ->
        store_after (update_announcement fromisoformat i req u w)
        = announcements_collection w).
Proof.
  destruct (check_teacher_cases (Some u) w) as [H|[e H]].
  2:{ unfold update_announcement. rewrite (bind_raise _ _ _ _ _ H).
      repeat split. }
  destruct (ObjectId i) as [o|] eqn:Ho.
  2:{ rewrite (update_invalid_id i u req w H Ho). repeat split. }
  destruct (find (fun x => String.eqb (_id x) o)
              (announcements_collection w)) as [existing|] eqn:Hf.
  2:{ rewrite (update_not_found i u req w o H Ho Hf). repeat split. }
  rewrite (update_announcement_run fromisoformat w i u req o existing H Ho Hf).
  assert (G : forall ud w1,
             teachers_collection w1 = teachers_collection w ->
             announcements_collection w1 = announcements_collection w ->
             teachers_collection (snd (apply_update o ud existing w1))
             = teachers_collection w
             /\ map birth (store_after (apply_update o ud existing w1))
                = map birth (announcements_collection w)
             /\ (forall e,
                   fst (apply_update o ud existing w1) = Raise e ->
                   store_after (apply_update o ud existing w1)
                   = announcements_collection w)).
  { intros ud w1 Ht Hs. unfold apply_update, store_after.
    destruct ud as [|kv ud]; simpl.
    - rewrite Hs. repeat split; assumption.
    - split; [exact Ht|]. split; [|discriminate].
      rewrite Hs. apply update_first_birth. }
  destruct (AnnouncementUpdate.expiration_date req) as [e|].
  - destruct (fromisoformat (replace_Z e)) as [d|]; [|repeat split].
    destruct (datetime_lt d (current_instant w)) as [[|]|].
    + repeat split.
    + apply G; reflexivity.
    + repeat split.
  - apply G; reflexivity.
Qed.

Lemma remove_first_unique (o : oid) (l : list Document) (g : Document) :
  NoDup (map _id l) ->
  find (fun d => String.eqb (_id d) o) l = Some g ->
  forall x, In x (remove_first o l) -> _id x <> o.
Proof.
  intros Hnd Hg x Hx Ex.
  pose proof (remove_first_perm o l g Hg) as Hp.
  destruct (find_by_id_found o l g Hg) as [_ Eg].
  apply (Permutation_map _id) in Hp.
  apply (Permutation_NoDup Hp) in Hnd. simpl in Hnd.
  apply NoDup_cons_iff in Hnd. destruct Hnd as [Hnot _].
  apply Hnot. rewrite Eg. rewrite <- Ex at 1. apply in_map. exact Hx.
Qed.

(** [delete_announcement] step by step, for a requester that passes the
    teacher check. *)
Lemma delete_announcement_run (i u : string) (w : World) :
  check_teacher (Some u) w = (Ok tt, w) ->
  delete_announcement i u w
  = match ObjectId i with
    | None => (Raise (HTTPException 400 detail_invalid_id), w)
    | Some o =>
        match find (fun d => String.eqb (_id d) o)
                (announcements_collection w) with
        | None => (Raise (HTTPException 404 detail_not_found), w)
        | Some _ =>
            (Ok detail_deleted,
             set_announcements
               (remove_first o (announcements_collection w)) w)
        end
    end.
Proof.
  intros H. unfold delete_announcement. rewrite (bind_ok _ _ _ _ _ H).
  unfold bind, parse_id, delete_one.
  destruct (ObjectId i) as [o|]; simpl; [|reflexivity].
  now destruct (find (fun d => String.eqb (_id d) o)
                  (announcements_collection w)).
Qed.

Lemma delete_outcome (i u : string) (w : World) :
  teachers_collection (snd (delete_announcement i u w))
  = teachers_collection w
  /\ (forall e,
        fst (delete_announcement i u w) = Raise e ->
        store_after (delete_announcement i u w)
        = announcements_collection w).
Proof.
  destruct (check_teacher_cases (Some u) w) as [H|[e H]].
  2:{ unfold delete_announcement. rewrite (bind_raise _ _ _ _ _ H).
      repeat split. }
  rewrite (delete_announcement_run i u w H).
  destruct (ObjectId i) as [o|]; [|repeat split].
  destruct (find (fun d => String.eqb (_id d) o)
              (announcements_collection w)); [|repeat split].
  split; [reflexivity|]. discriminate.
Qed.

End Outcomes.

(* ================================================================== *)
(** ** Further properties of the endpoints *)
(* ================================================================== *)

Lemma fst_bind_ret {A B} (m : M A) (f : A -> B) (w : World) (e : Exn) :
  fst ((x <- m ;; ret (f x)) w) = Raise e -> fst (m w) = Raise e.
Proof. unfold bind. destruct (m w) as [[a|e'] w1]; simpl; congruence. Qed.

Lemma authorized_same_directory (u : string) (w w' : World) :
  teachers_collection w' = teachers_collection w ->
  authorized u w -> authorized u w'.
Proof. unfold authorized. now intros ->. Qed.

Section Contracts.

Variable fromisoformat : string -> option datetime.

(** X1. A create request that passes the checks is stored as given: the
    announcement returned carries the [message], [start_date] and
    [expiration_date] of the request, character for character, the
    requester as [created_by], and as [created_at] the print of the
    clock reading that follows the one the expiration was checked
    against; the store is the old one with this announcement at the end,
    and the Teacher Directory is untouched. *)
Theorem create_stores_the_request (a : AnnouncementCreate.t) (u : string)
  (w : World) (d : datetime) :
  authorized u w ->
  fromisoformat (replace_Z (AnnouncementCreate.expiration_date a)) = Some d ->
  datetime_lt d (current_instant w) = Some false ->
  start_date_passes fromisoformat (AnnouncementCreate.start_date a) d ->
  exists (resp : Response) (w' : World),
    create_announcement fromisoformat a u w = (Ok resp, w')
    /\ fields resp
       = mk_fields (AnnouncementCreate.message a)
           (AnnouncementCreate.start_date a)
           (AnnouncementCreate.expiration_date a) u
           (isoformat (as_naive (clock w (S (ticks w)))))
    /\ announcements_collection w'
       = (announcements_collection w
          ++ [mk_document (id resp) (fields resp)])%list
    /\ teachers_collection w' = teachers_collection w.
Proof.
  intros Hu Hd Hlt Hs.
  rewrite (create_announcement_run fromisoformat a u w
             (check_teacher_ok u w Hu)), Hd, Hlt.
  assert (K : exists (resp : Response) (w' : World),
             insert_announcement a u (tick w) = (Ok resp, w')
             /\ fields resp
                = mk_fields (AnnouncementCreate.message a)
                    (AnnouncementCreate.start_date a)
                    (AnnouncementCreate.expiration_date a) u
                    (isoformat (as_naive (clock w (S (ticks w)))))
             /\ announcements_collection w'
                = (announcements_collection w
                   ++ [mk_document (id resp) (fields resp)])%list
             /\ teachers_collection w' = teachers_collection w).
  { rewrite insert_announcement_run. eexists. eexists.
    split; [reflexivity|]. repeat split. }
  unfold start_date_passes in Hs.
  destruct (AnnouncementCreate.start_date a) as [s|];
    unfold truthy_opt, option_map; [|exact K].
  destruct Hs as [Hf|[ds [Hp Hge]]].
  - rewrite Hf. exact K.
  - destruct (truthy s); [|exact K]. rewrite Hp, Hge. exact K.
Qed.

(** X2. What [create_announcement] returns, [get_all_announcements]
    lists: after a successful create, the full listing asked for by the
    same teacher succeeds and contains the announcement exactly as
    create returned it. *)
Theorem created_announcement_is_listed (a : AnnouncementCreate.t)
  (u : string) (w w' : World) (resp : Response) :
  create_announcement fromisoformat a u w = (Ok resp, w') ->
  exists l : list Response,
    get_all_announcements (Some u) w' = (Ok l, w') /\ In resp l.
Proof.
  intros H. destruct (create_outcome fromisoformat a u w) as [Ht Hc].
  rewrite H in Ht, Hc. simpl in Ht. unfold store_after in Hc. simpl in Hc.
  destruct Hc as [[e [He _]]|[r [Hr [Hs Hu]]]]; [discriminate|].
  injection Hr as <-.
  eexists. split.
  - apply get_all_announcements_eq.
    exact (authorized_same_directory u w w' Ht Hu).
  - rewrite filter_all, Hs. apply in_map_iff.
    exists (mk_document (id resp) (fields resp)). split.
    + now destruct resp.
    + apply In_sort_created_at_desc, in_or_app. right. now left.
Qed.

(** X3. No partial writes: a call that ends in an exception, of whatever
    kind, leaves the store of announcements as it was. *)
Theorem failed_calls_leave_the_store (c : Call) (w : World) (e : Exn) :
  fst (handle fromisoformat c w) = Raise e ->
  store_after (handle fromisoformat c w) = announcements_collection w.
Proof.
  unfold store_after.
  destruct c as [|r|a u|i a u|i u]; unfold handle; intros H;
    apply fst_bind_ret in H; rewrite snd_bind_ret.
  - reflexivity.
  - now rewrite list_all_keeps_world.
  - destruct (create_outcome fromisoformat a u w)
      as [_ [[e' [_ Hs]]|[r [Hr _]]]]; [exact Hs | congruence].
  - destruct (update_outcome fromisoformat i u a w) as [_ [_ Hs]].
    exact (Hs e H).
  - destruct (delete_outcome i u w) as [_ Hs]. exact (Hs e H).
Qed.

(** X4. The Teacher Directory is only read: no call, succeeding or
    failing, changes it. *)
Theorem teacher_directory_is_read_only (c : Call) (w : World) :
  teachers_collection (snd (handle fromisoformat c w))
  = teachers_collection w.
Proof.
  destruct c as [|r|a u|i a u|i u]; unfold handle; rewrite snd_bind_ret.
  - reflexivity.
  - now rewrite list_all_keeps_world.
  - exact (proj1 (create_outcome fromisoformat a u w)).
  - exact (proj1 (update_outcome fromisoformat i u a w)).
  - exact (proj1 (delete_outcome i u w)).
Qed.

(** X5. A deleted announcement is gone for the other endpoints too:
    identifiers being unique, after a successful delete both a second
    delete and an update under the same identifier answer 404
    "Announcement not found", whatever the update asks for. *)
Theorem deleted_announcement_is_not_found (i u m : string) (w w' : World) :
  NoDup (map _id (announcements_collection w)) ->
  delete_announcement i u w = (Ok m, w') ->
  delete_announcement i u w' = (Raise (HTTPException 404 detail_not_found), w')
  /\ (forall req : AnnouncementUpdate.t,
        update_announcement fromisoformat i req u w'
        = (Raise (HTTPException 404 detail_not_found), w')).
Proof.
  intros Hnd H.
  destruct (check_teacher_cases (Some u) w) as [Hc|[e Hc]].
  2:{ unfold delete_announcement in H.
      rewrite (bind_raise _ _ _ _ _ Hc) in H. discriminate. }
  rewrite (delete_announcement_run i u w Hc) in H.
  destruct (ObjectId i) as [o|] eqn:Ho; [|discriminate].
  destruct (find (fun d => String.eqb (_id d) o)
              (announcements_collection w)) as [g|] eqn:Hg; [|discriminate].
  injection H as _ <-.
  assert (Hc' : check_teacher (Some u)
                  (set_announcements
                     (remove_first o (announcements_collection w)) w)
                = (Ok tt,
                   set_announcements
                     (remove_first o (announcements_collection w)) w)).
  { unfold check_teacher, bind, raise_if, teachers_find_one in *.
    simpl. destruct (truthy u); simpl in *; [|discriminate].
    destruct (find (String.eqb u) (teachers_collection w));
      [reflexivity | discriminate]. }
  assert (Hnone : find (fun d => String.eqb (_id d) o)
                    (remove_first o (announcements_collection w)) = None)
    by (apply find_by_id_none; exact (remove_first_unique o _ g Hnd Hg)).
  split.
  - rewrite (delete_announcement_run i u _ Hc'), Ho. simpl.
    now rewrite Hnone.
  - intros req.
    exact (update_not_found fromisoformat i u req _ o Hc' Ho Hnone).
Qed.

(** X6. An update that supplies no field at all is refused with 400
    "No fields to update", once the requester and the identifier have
    been accepted; nothing is written. *)
Theorem update_without_fields_is_refused (i u : string) (w : World)
  (o : oid) (existing : Document) :
  authorized u w ->
  ObjectId i = Some o ->
  find (fun x => String.eqb (_id x) o) (announcements_collection w)
  = Some existing ->
  update_announcement fromisoformat i (AnnouncementUpdate.mk None None None)
    u w
  = (Raise (HTTPException 400 detail_no_fields), w).
Proof.
  intros Hu Ho Hf.
  now rewrite (update_announcement_run fromisoformat w i u _ o existing
                 (check_teacher_ok u w Hu) Ho Hf).
Qed.

(** X7. [update_announcement] looks at the identifier before it looks at
    the body: an identifier [ObjectId] refuses gives 400
    "Invalid announcement ID", and a well-formed one that no stored
    announcement carries gives 404 "Announcement not found", whatever the
    request contains, valid or not; the world is as it was. *)
Theorem update_checks_the_identifier_first (i u : string) (w : World) :
  authorized u w ->
  (ObjectId i = None ->
   forall req : AnnouncementUpdate.t,
     update_announcement fromisoformat i req u w
     = (Raise (HTTPException 400 detail_invalid_id), w))
  /\ (forall o : oid,
        ObjectId i = Some o ->
        (forall d, In d (announcements_collection w) -> _id d <> o) ->
        forall req : AnnouncementUpdate.t,
          update_announcement fromisoformat i req u w
          = (Raise (HTTPException 404 detail_not_found), w)).
Proof.
  intros Hu. pose proof (check_teacher_ok u w Hu) as Hc. split.
  - intros Ho req. exact (update_invalid_id fromisoformat i u req w Hc Ho).
  - intros o Ho Hno req.
    exact (update_not_found fromisoformat i u req w o Hc Ho
             (find_by_id_none o _ Hno)).
Qed.

(** X8. An update whose [expiration_date] does not parse is refused with
    400 "Invalid date format...", and one whose [expiration_date] parses
    to an instant before the clock reading with 400 "Expiration date must
    be in the future"; the [message] and [start_date] the same request
    may carry are not written. *)
Theorem update_refuses_a_bad_expiration (i u e : string)
  (req : AnnouncementUpdate.t) (w : World) (o : oid) (existing : Document) :
  authorized u w ->
  ObjectId i = Some o ->
  find (fun x => String.eqb (_id x) o) (announcements_collection w)
  = Some existing ->
  AnnouncementUpdate.expiration_date req = Some e ->
  (fromisoformat (replace_Z e) = None ->
   update_announcement fromisoformat i req u w
   = (Raise (HTTPException 400 detail_date_format), w))
  /\ (forall d : datetime,
        fromisoformat (replace_Z e) = Some d ->
        datetime_lt d (current_instant w) = Some true ->
        update_announcement fromisoformat i req u w
        = (Raise (HTTPException 400 detail_not_future), tick w)
        /\ announcements_collection (tick w) = announcements_collection w).
Proof.
  intros Hu Ho Hf He.
  rewrite (update_announcement_run fromisoformat w i u req o existing
             (check_teacher_ok u w Hu) Ho Hf), He.
  split.
  - now intros ->.
  - intros d -> ->. now split.
Qed.

(** X9. What [create_announcement] refuses with 400, for an authorized
    teacher: an [expiration_date] that does not parse ("Invalid date
    format..."), one that parses to an instant before the clock reading
    ("Expiration date must be in the future", whatever the [start_date]);
    and then a non-empty [start_date] that does not parse ("Invalid date
    format...") or that parses to an instant at or after the expiration
    ("Start date must be before expiration date"). Nothing is inserted. *)
Theorem create_refusals (a : AnnouncementCreate.t) (u : string)
  (w : World) :
  authorized u w ->
  (fromisoformat (replace_Z (AnnouncementCreate.expiration_date a)) = None ->
   create_announcement fromisoformat a u w
   = (Raise (HTTPException 400 detail_date_format), w))
  /\ (forall d : datetime,
        fromisoformat (replace_Z (AnnouncementCreate.expiration_date a))
        = Some d ->
        datetime_lt d (current_instant w) = Some true ->
        create_announcement fromisoformat a u w
        = (Raise (HTTPException 400 detail_not_future), tick w))
  /\ (forall (d : datetime) (s : string),
        fromisoformat (replace_Z (AnnouncementCreate.expiration_date a))
        = Some d ->
        datetime_lt d (current_instant w) = Some false ->
        AnnouncementCreate.start_date a = Some s ->
        s <> EmptyString ->
        (fromisoformat (replace_Z s) = None ->
         create_announcement fromisoformat a u w
         = (Raise (HTTPException 400 detail_date_format), tick w))
        /\ (forall ds : datetime,
              fromisoformat (replace_Z s) = Some ds ->
              datetime_ge ds d = Some true ->
              create_announcement fromisoformat a u w
              = (Raise (HTTPException 400 detail_start_order), tick w)))
  /\ announcements_collection (tick w) = announcements_collection w.
Proof.
  intros Hu.
  rewrite (create_announcement_run fromisoformat a u w
             (check_teacher_ok u w Hu)).
  split; [|split; [|split; [|reflexivity]]].
  - now intros ->.
  - now intros d -> ->.
  - intros d s -> -> -> Hs. apply truthy_nonempty in Hs.
    unfold truthy_opt, option_map. rewrite Hs. split.
    + now intros ->.
    + now intros ds -> ->.
Qed.

(** X10. [update_announcement] stores a new [start_date] without reading
    it: any string is accepted, a date or not, and the announcement
    comes back with that string as its [start_date] and its other fields
    as they were. *)
Theorem update_takes_any_start_date (i u s : string) (w : World) (o : oid)
  (existing : Document) :
  authorized u w ->
  ObjectId i = Some o ->
  find (fun x => String.eqb (_id x) o) (announcements_collection w)
  = Some existing ->
  exists w' : World,
    update_announcement fromisoformat i
      (AnnouncementUpdate.mk None (Some s) None) u w
    = (Ok (mk_response (str_oid (_id existing))
             (mk_fields (message (doc existing)) (Some s)
                (expiration_date (doc existing))
                (created_by (doc existing)) (created_at (doc existing)))),
       w')
    /\ find (fun x => String.eqb (_id x) o) (announcements_collection w')
       = Some (mk_document o
                 (mk_fields (message (doc existing)) (Some s)
                    (expiration_date (doc existing))
                    (created_by (doc existing))
                    (created_at (doc existing)))).
Proof.
  intros Hu Ho Hf.
  rewrite (update_announcement_run fromisoformat w i u _ o existing
             (check_teacher_ok u w Hu) Ho Hf).
  destruct (find_by_id_found o _ existing Hf) as [_ Eo].
  simpl. eexists. split; [reflexivity|]. simpl.
  rewrite (find_update_first o _ _ existing Hf); [|exact Eo].
  unfold apply_set. simpl. now rewrite Eo.
Qed.

(** X13. [update_announcement] never adds, removes or moves an
    announcement, and never changes an identifier, a [created_by] or a
    [created_at]: whatever it is given and however it ends, the stored
    announcements have, position by position, the identifier, author and
    creation stamp they had. *)
Theorem update_keeps_births (i u : string) (req : AnnouncementUpdate.t)
  (w : World) :
  map birth (store_after (update_announcement fromisoformat i req u w))
  = map birth (announcements_collection w).
Proof. exact (proj1 (proj2 (update_outcome fromisoformat i u req w))). Qed.

End Contracts.

(** X11. [get_all_announcements] filters nothing: for an authorized
    teacher it returns every stored announcement, expired or not, each
    exactly once, and leaves the world as it was. *)
Theorem list_all_lists_everything (u : string) (w : World) :
  authorized u w ->
  exists l : list Response,
    get_all_announcements (Some u) w = (Ok l, w)
    /\ Permutation l (map to_response (announcements_collection w)).
Proof.
  intros Hu. eexists. split; [now apply get_all_announcements_eq|].
  rewrite filter_all. apply Permutation_map, sort_created_at_desc_perm.
Qed.

(** X12. The active listing is part of the full listing: taken in the
    same world, every announcement [get_active_announcements] returns is
    among those [get_all_announcements] returns to an authorized
    teacher. *)
Theorem active_listing_within_full_listing (u : string) (w w1 : World)
  (active all : list Response) :
  get_active_announcements w = (Ok active, w1) ->
  get_all_announcements (Some u) w = (Ok all, w) ->
  incl active all.
Proof.
  intros Ha Hall.
  rewrite get_active_announcements_eq in Ha. injection Ha as <- _.
  destruct (check_teacher_cases (Some u) w) as [Hc|[e Hc]].
  2:{ unfold get_all_announcements in Hall.
      rewrite (bind_raise _ _ _ _ _ Hc) in Hall. discriminate. }
  unfold get_all_announcements in Hall.
  rewrite (bind_ok _ _ _ _ _ Hc) in Hall.
  unfold bind, find_sorted in Hall. simpl in Hall. injection Hall as <-.
  intros r Hr. apply in_map_iff in Hr. destruct Hr as [d [<- Hd]].
  apply in_map. apply filter_In in Hd. destruct Hd as [Hd _].
  apply (proj1 (In_sort_created_at_desc _ _)) in Hd.
  apply filter_In in Hd. destruct Hd as [Hd _].
  apply (proj2 (In_sort_created_at_desc _ _)). rewrite filter_all. exact Hd.
Qed.

(* ================================================================== *)
(** ** Identifiers handed out by the store *)
(* ================================================================== *)

Lemma hex_digit_lower (d : N) :
  (d < 16)%N -> lower_hex (String (hex_digit d) EmptyString) = true.
Proof.
  intros H.
  assert (A : forallb
                (fun k => lower_hex
                            (String (hex_digit (N.of_nat k)) EmptyString))
                (seq 0 16) = true) by (vm_compute; reflexivity).
  rewrite forallb_forall in A.
  rewrite <- (N2Nat.id d). apply A. apply in_seq. lia.
Qed.

Lemma lower_hex_app (a b : string) :
  lower_hex (a ++ b) = lower_hex a && lower_hex b.
Proof.
  induction a as [|c a IH]; simpl; [reflexivity|].
  rewrite IH. now rewrite andb_assoc.
Qed.

Lemma length_app (a b : string) :
  String.length (a ++ b) = (String.length a + String.length b)%nat.
Proof. induction a as [|c a IH]; simpl; congruence. Qed.

Lemma hex_fill_spec (width : nat) (n : N) :
  lower_hex (hex_fill width n) = true
  /\ String.length (hex_fill width n) = width.
Proof.
  revert n. induction width as [|k IH]; intros n; simpl; [auto|].
  destruct (IH (n / 16)%N) as [H1 H2].
  rewrite lower_hex_app, length_app, H1, H2. split.
  - apply hex_digit_lower. apply N.mod_upper_bound. discriminate.
  - simpl. lia.
Qed.

Lemma fromhex_lower_hex (k : nat) (s : string) :
  String.length s = (2 * k)%nat -> lower_hex s = true -> fromhex s = Some s.
Proof.
  revert s. induction k as [|k IH]; intros s Hl Hh.
  - destruct s; [reflexivity | discriminate].
  - destruct s as [|c1 [|c2 s]]; simpl in Hl; try lia.
    simpl in Hh. repeat rewrite andb_true_iff in Hh.
    destruct Hh as [[Hs1 Hc1] [[Hs2 Hc2] Hh]].
    apply negb_true_iff in Hs1.
    simpl. rewrite Hs1.
    destruct (hex_lower c1) as [h1|]; [|discriminate].
    destruct (hex_lower c2) as [h2|]; [|discriminate].
    apply Ascii.eqb_eq in Hc1, Hc2. subst h1 h2.
    rewrite (IH s); [reflexivity | lia | exact Hh].
Qed.

(** [ObjectId(str(oid)) == oid] for the identifiers the store hands
    out. *)
Lemma ObjectId_of_supplied (n : N) :
  ObjectId (hex_fill 24 n) = Some (hex_fill 24 n).
Proof.
  destruct (hex_fill_spec 24 n) as [Hh Hl].
  unfold ObjectId. rewrite Hl. simpl Nat.eqb. cbv iota.
  apply (fromhex_lower_hex 12); [exact Hl | exact Hh].
Qed.

Lemma find_by_id_last (o : oid) (l : list Document) (f : Fields) :
  (forall d, In d l -> _id d <> o) ->
  find (fun d => String.eqb (_id d) o) (l ++ [mk_document o f])%list
  = Some (mk_document o f)
  /\ remove_first o (l ++ [mk_document o f])%list = l.
Proof.
  induction l as [|x l IH]; intros H; simpl.
  - now rewrite String.eqb_refl.
  - destruct (String.eqb_spec (_id x) o) as [E|N].
    + exfalso. apply (H x); [now left | exact E].
    + destruct IH as [I1 I2]; [intros d Hd; apply H; now right|].
      split; [exact I1 | now rewrite I2].
Qed.

Lemma check_teacher_same_directory (r : option string) (w w' : World) :
  teachers_collection w' = teachers_collection w ->
  check_teacher r w = (Ok tt, w) -> check_teacher r w' = (Ok tt, w').
Proof.
  intros Ht. unfold check_teacher, bind, raise_if, teachers_find_one.
  destruct r as [u|]; [|discriminate].
  destruct (truthy u); simpl; [|discriminate]. rewrite Ht.
  destruct (find (String.eqb u) (teachers_collection w));
    [reflexivity | discriminate].
Qed.

Section RoundTrip.

Variable fromisoformat : string -> option datetime.

(** What a successful create did. *)
Lemma create_success (a : AnnouncementCreate.t) (u : string) (w w' : World)
  (resp : Response) :
  create_announcement fromisoformat a u w = (Ok resp, w') ->
  check_teacher (Some u) w = (Ok tt, w)
  /\ id resp = hex_fill 24 (next_oid w)
  /\ announcements_collection w'
     = (announcements_collection w
        ++ [mk_document (id resp) (fields resp)])%list
  /\ teachers_collection w' = teachers_collection w.
Proof.
  intros H.
  destruct (check_teacher_cases (Some u) w) as [Hc|[e Hc]].
  2:{ unfold create_announcement in H.
      rewrite (bind_raise _ _ _ _ _ Hc) in H. discriminate. }
  split; [exact Hc|].
  rewrite (create_announcement_run fromisoformat a u w Hc) in H.
  assert (K : insert_announcement a u (tick w) = (Ok resp, w') ->
              id resp = hex_fill 24 (next_oid w)
              /\ announcements_collection w'
                 = (announcements_collection w
                    ++ [mk_document (id resp) (fields resp)])%list
              /\ teachers_collection w' = teachers_collection w).
  { rewrite insert_announcement_run. intros E. injection E as <- <-.
    repeat split. }
  destruct (fromisoformat (replace_Z (AnnouncementCreate.expiration_date a)))
    as [d|]; [|discriminate].
  destruct (datetime_lt d (current_instant w)) as [[|]|];
    try discriminate.
  destruct (truthy_opt (AnnouncementCreate.start_date a)); [|now apply K].
  destruct (option_map (fun s => fromisoformat (replace_Z s))
              (AnnouncementCreate.start_date a)) as [[ds|]|];
    try discriminate.
  destruct (datetime_ge ds d) as [[|]|]; try discriminate.
  now apply K.
Qed.

(** X15. The [id] a successful create returns is one [delete_announcement]
    accepts, and deleting under it undoes the create: provided the
    identifier the store handed out was not in use, the delete by the
    same teacher succeeds and the store is again what it was before the
    create. *)
Theorem create_then_delete_restores_the_store (a : AnnouncementCreate.t)
  (u : string) (w w' : World) (resp : Response) :
  (forall d, In d (announcements_collection w) ->
             _id d <> hex_fill 24 (next_oid w)) ->
  create_announcement fromisoformat a u w = (Ok resp, w') ->
  ObjectId (id resp) = Some (id resp)
  /\ exists w'' : World,
       delete_announcement (id resp) u w' = (Ok detail_deleted, w'')
       /\ announcements_collection w'' = announcements_collection w.
Proof.
  intros Hfresh H.
  destruct (create_success a u w w' resp H) as [Hc [Hid [Hs Ht]]].
  assert (Ho : ObjectId (id resp) = Some (id resp))
    by (rewrite Hid; apply ObjectId_of_supplied).
  split; [exact Ho|].
  pose proof (check_teacher_same_directory (Some u) w w' Ht Hc) as Hc'.
  rewrite (delete_announcement_run (id resp) u w' Hc'), Ho, Hs.
  rewrite <- Hid in Hfresh.
  destruct (find_by_id_last (id resp) (announcements_collection w)
              (fields resp) Hfresh) as [F R].
  rewrite F. eexists. split; [reflexivity|]. simpl. exact R.
Qed.

End RoundTrip.

(* ================================================================== *)
(** ** Strings against instants *)
(* ================================================================== *)

Lemma compare_app_prefix (p a b : string) :
  ((p ++ a) ?= (p ++ b))%string = (a ?= b)%string.
Proof.
  induction p as [|c p IH]; simpl; [reflexivity|].
  unfold Ascii.compare. now rewrite N.compare_refl.
Qed.

Lemma string_app_assoc (a b c : string) : (a ++ b) ++ c = a ++ (b ++ c).
Proof. induction a as [|x a IH]; simpl; congruence. Qed.

Lemma isoformat_split (d : datetime) :
  exists rest : string,
    isoformat d = isoformat_date d ++ String "T" rest.
Proof.
  unfold isoformat, isoformat_date. eexists.
  repeat rewrite string_app_assoc. simpl. reflexivity.
Qed.

(** X14. [get_active_announcements] compares the stored strings, not the
    instants they denote: an announcement whose [expiration_date] is
    today's date followed by a space and a time (a form
    [datetime.fromisoformat] reads, so that create accepts it while that
    time is ahead) is never listed as active today, whatever the time,
    because the space sorts before the ["T"] of the printed clock
    reading. *)
Theorem space_separated_expiration_is_never_active (w : World)
  (a : Document) (time : string) :
  expiration_date (doc a)
  = isoformat_date (current_instant w) ++ String " " time ->
  exists (result : list Response) (w' : World),
    get_active_announcements w = (Ok result, w')
    /\ ~ In (to_response a) result.
Proof.
  intros He. eexists. eexists.
  split; [apply get_active_announcements_eq|].
  intros Hin. apply in_map_iff in Hin. destruct Hin as [b [Eb Hb]].
  apply filter_In in Hb. destruct Hb as [Hb _].
  apply (proj1 (In_sort_created_at_desc _ _)) in Hb.
  apply filter_In in Hb. destruct Hb as [_ Hexp].
  assert (D : doc b = doc a) by (now injection Eb).
  unfold not_expired in Hexp. rewrite D, He in Hexp.
  destruct (isoformat_split (current_instant w)) as [rest Er].
  rewrite Er in Hexp. unfold String.leb in Hexp. rewrite compare_app_prefix in Hexp.
  simpl in Hexp. discriminate Hexp.
Qed.

(* ================================================================== *)
(** ** The further properties on the sample data *)
(* ================================================================== *)

Lemma sample_ids_unique :
  NoDup (map _id (announcements_collection Sample.school)).
Proof.
  repeat constructor; simpl; intuition discriminate.
Defined.

Lemma create_stores_the_request_witness :
  exists (resp : Response) (w' : World),
    create_announcement Py37.fromisoformat Sample.winter_concert "mchen"
      Sample.school = (Ok resp, w')
    /\ fields resp
       = mk_fields "Winter concert" (Some "2026-12-10T18:00:00")
           "2026-12-10T21:00:00" "mchen" "2026-11-04T12:00:00"
    /\ announcements_collection w'
       = (announcements_collection Sample.school
          ++ [mk_document (id resp) (fields resp)])%list
    /\ teachers_collection w' = teachers_collection Sample.school.
Proof.
  apply (create_stores_the_request Py37.fromisoformat Sample.winter_concert
           "mchen" Sample.school (naive 2026 12 10 21 0 0 0)
           sample_authorized).
  - reflexivity.
  - reflexivity.
  - right. exists (naive 2026 12 10 18 0 0 0). split; reflexivity.
Defined.

Lemma created_announcement_is_listed_witness :
  exists (resp : Response) (w' : World),
    create_announcement Py37.fromisoformat Sample.winter_concert "mchen"
      Sample.school = (Ok resp, w')
    /\ exists l : list Response,
         get_all_announcements (Some "mchen") w' = (Ok l, w') /\ In resp l.
Proof.
  destruct (create_announcement Py37.fromisoformat Sample.winter_concert
              "mchen" Sample.school) as [[resp|e] w'] eqn:E.
  - exists resp, w'. split; [reflexivity|].
    exact (created_announcement_is_listed Py37.fromisoformat
             Sample.winter_concert "mchen" Sample.school w' resp E).
  - vm_compute in E. discriminate E.
Defined.

Lemma failed_calls_leave_the_store_witness :
  store_after
    (handle Py37.fromisoformat (Create Sample.graduation "mchen")
       Sample.school)
  = announcements_collection Sample.school.
Proof.
  apply (failed_calls_leave_the_store Py37.fromisoformat
           (Create Sample.graduation "mchen") Sample.school TypeError).
  reflexivity.
Defined.

Lemma deleted_announcement_is_not_found_witness :
  exists (m : string) (w' : World),
    delete_announcement "000000000000000000000002" "mchen" Sample.school
    = (Ok m, w')
    /\ delete_announcement "000000000000000000000002" "mchen" w'
       = (Raise (HTTPException 404 detail_not_found), w')
    /\ update_announcement Py37.fromisoformat "000000000000000000000002"
         (Sample.only_message "Back again") "mchen" w'
       = (Raise (HTTPException 404 detail_not_found), w').
Proof.
  destruct (delete_announcement "000000000000000000000002" "mchen"
              Sample.school) as [[m|e] w'] eqn:E.
  - exists m, w'. split; [reflexivity|].
    destruct (deleted_announcement_is_not_found Py37.fromisoformat
                "000000000000000000000002" "mchen" m Sample.school w'
                sample_ids_unique E) as [H1 H2].
    split; [exact H1 | apply H2].
  - vm_compute in E. discriminate E.
Defined.

Lemma update_without_fields_is_refused_witness :
  update_announcement Py37.fromisoformat "000000000000000000000003"
    Cases.no_fields "mchen" Sample.school
  = (Raise (HTTPException 400 detail_no_fields), Sample.school).
Proof.
  apply (update_without_fields_is_refused Py37.fromisoformat
           "000000000000000000000003" "mchen" Sample.school
           "000000000000000000000003" Sample.enrolment sample_authorized);
    reflexivity.
Defined.

Lemma update_checks_the_identifier_first_witness :
  update_announcement Py37.fromisoformat "not-an-id"
    (Sample.only_expiration "not a date") "mchen" Sample.school
  = (Raise (HTTPException 400 detail_invalid_id), Sample.school)
  /\ update_announcement Py37.fromisoformat "000000000000000000000009"
       (Sample.only_expiration "not a date") "mchen" Sample.school
     = (Raise (HTTPException 404 detail_not_found), Sample.school).
Proof.
  split.
  - apply (proj1 (update_checks_the_identifier_first Py37.fromisoformat
                    "not-an-id" "mchen" Sample.school sample_authorized)).
    reflexivity.
  - apply (proj2 (update_checks_the_identifier_first Py37.fromisoformat
                    "000000000000000000000009" "mchen" Sample.school
                    sample_authorized) "000000000000000000000009").
    + reflexivity.
    + simpl. intros d [<-|[<-|[<-|[]]]]; discriminate.
Defined.

Lemma update_refuses_a_bad_expiration_witness :
  update_announcement Py37.fromisoformat "000000000000000000000003"
    (Cases.message_and_expiration "Enrolment closes soon" "next Friday")
    "mchen" Sample.school
  = (Raise (HTTPException 400 detail_date_format), Sample.school)
  /\ update_announcement Py37.fromisoformat "000000000000000000000003"
       (Cases.message_and_expiration "Enrolment closes soon"
          "2026-11-04T11:00:00")
       "mchen" Sample.school
     = (Raise (HTTPException 400 detail_not_future), tick Sample.school).
Proof.
  split.
  - apply (proj1 (update_refuses_a_bad_expiration Py37.fromisoformat
                    "000000000000000000000003" "mchen" "next Friday"
                    (Cases.message_and_expiration "Enrolment closes soon"
                       "next Friday")
                    Sample.school "000000000000000000000003"
                    Sample.enrolment sample_authorized
                    eq_refl eq_refl eq_refl)).
    reflexivity.
  - apply (proj2 (update_refuses_a_bad_expiration Py37.fromisoformat
                    "000000000000000000000003" "mchen" "2026-11-04T11:00:00"
                    (Cases.message_and_expiration "Enrolment closes soon"
                       "2026-11-04T11:00:00")
                    Sample.school "000000000000000000000003"
                    Sample.enrolment sample_authorized
                    eq_refl eq_refl eq_refl)
             (naive 2026 11 4 11 0 0 0)); reflexivity.
Defined.

Lemma create_refusals_witness :
  create_announcement Py37.fromisoformat
    (Cases.create_with None "next Friday") "mchen" Sample.school
  = (Raise (HTTPException 400 detail_date_format), Sample.school)
  /\ create_announcement Py37.fromisoformat
       (Cases.create_with (Some "whenever") "2026-11-04T11:00:00") "mchen"
       Sample.school
     = (Raise (HTTPException 400 detail_not_future), tick Sample.school)
  /\ create_announcement Py37.fromisoformat
       (Cases.create_with (Some "whenever") "2026-11-20T19:00:00") "mchen"
       Sample.school
     = (Raise (HTTPException 400 detail_date_format), tick Sample.school)
  /\ create_announcement Py37.fromisoformat
       (Cases.create_with (Some "2026-11-20T19:00:00")
          "2026-11-20T19:00:00") "mchen" Sample.school
     = (Raise (HTTPException 400 detail_start_order), tick Sample.school).
Proof.
  split; [|split; [|split]].
  - apply (proj1 (create_refusals Py37.fromisoformat
                    (Cases.create_with None "next Friday") "mchen"
                    Sample.school sample_authorized)).
    reflexivity.
  - apply (proj1 (proj2 (create_refusals Py37.fromisoformat
                           (Cases.create_with (Some "whenever")
                              "2026-11-04T11:00:00") "mchen"
                           Sample.school sample_authorized))
             (naive 2026 11 4 11 0 0 0)); reflexivity.
  - apply (proj1 (proj1 (proj2 (proj2
             (create_refusals Py37.fromisoformat
                (Cases.create_with (Some "whenever") "2026-11-20T19:00:00")
                "mchen" Sample.school sample_authorized)))
             (naive 2026 11 20 19 0 0 0) "whenever"
             eq_refl eq_refl eq_refl
             ltac:(discriminate))).
    reflexivity.
  - apply (proj2 (proj1 (proj2 (proj2
             (create_refusals Py37.fromisoformat
                (Cases.create_with (Some "2026-11-20T19:00:00")
                   "2026-11-20T19:00:00")
                "mchen" Sample.school sample_authorized)))
             (naive 2026 11 20 19 0 0 0) "2026-11-20T19:00:00"
             eq_refl eq_refl eq_refl
             ltac:(discriminate))
             (naive 2026 11 20 19 0 0 0)); reflexivity.
Defined.

Lemma update_takes_any_start_date_witness :
  exists w' : World,
    update_announcement Py37.fromisoformat "000000000000000000000003"
      (Cases.only_start "after the holidays") "mchen" Sample.school
    = (Ok (mk_response "000000000000000000000003"
             (mk_fields "Enrolment is open" (Some "after the holidays")
                "2027-01-01T00:00:00" "mchen" "2026-10-15T08:30:00")),
       w')
    /\ find (fun x => String.eqb (_id x) "000000000000000000000003")
         (announcements_collection w')
       = Some (mk_document "000000000000000000000003"
                 (mk_fields "Enrolment is open" (Some "after the holidays")
                    "2027-01-01T00:00:00" "mchen" "2026-10-15T08:30:00")).
Proof.
  apply (update_takes_any_start_date Py37.fromisoformat
           "000000000000000000000003" "mchen" "after the holidays"
           Sample.school "000000000000000000000003" Sample.enrolment
           sample_authorized); reflexivity.
Defined.

Lemma list_all_lists_everything_witness :
  exists l : list Response,
    get_all_announcements (Some "mchen") Sample.school
    = (Ok l, Sample.school)
    /\ Permutation l
         (map to_response (announcements_collection Sample.school)).
Proof.
  exact (list_all_lists_everything "mchen" Sample.school sample_authorized).
Defined.

Lemma active_listing_within_full_listing_witness :
  exists active all : list Response,
    get_active_announcements Sample.school = (Ok active, tick Sample.school)
    /\ get_all_announcements (Some "mchen") Sample.school
       = (Ok all, Sample.school)
    /\ incl active all.
Proof.
  eexists. eexists.
  split; [apply get_active_announcements_eq|].
  split; [apply get_all_announcements_eq; exact sample_authorized|].
  apply (active_listing_within_full_listing "mchen" Sample.school
           (tick Sample.school)).
  - apply get_active_announcements_eq.
  - apply get_all_announcements_eq. exact sample_authorized.
Defined.

Lemma space_separated_expiration_is_never_active_witness :
  (exists (resp : Response) (w' : World),
      create_announcement Py37.fromisoformat Cases.lunch "mchen"
        Cases.canteen = (Ok resp, w'))
  /\ In Cases.lunch_today (announcements_collection Cases.canteen)
  /\ exists (result : list Response) (w' : World),
       get_active_announcements Cases.canteen = (Ok result, w')
       /\ ~ In (to_response Cases.lunch_today) result.
Proof.
  split; [eexists; eexists; vm_compute; reflexivity|].
  split; [simpl; auto|].
  apply (space_separated_expiration_is_never_active Cases.canteen
           Cases.lunch_today "13:00:00").
  reflexivity.
Defined.

Lemma create_then_delete_restores_the_store_witness :
  exists (resp : Response) (w' w'' : World),
    create_announcement Py37.fromisoformat Sample.winter_concert "mchen"
      Sample.school = (Ok resp, w')
    /\ delete_announcement (id resp) "mchen" w' = (Ok detail_deleted, w'')
    /\ announcements_collection w''
       = announcements_collection Sample.school.
Proof.
  destruct (create_announcement Py37.fromisoformat Sample.winter_concert
              "mchen" Sample.school) as [[resp|e] w'] eqn:E.
  - destruct (create_then_delete_restores_the_store Py37.fromisoformat
                Sample.winter_concert "mchen" Sample.school w' resp)
      as [_ [w'' [H1 H2]]].
    + simpl. intros d [<-|[<-|[<-|[]]]]; discriminate.
    + exact E.
    + exists resp, w', w''. split; [reflexivity|]. now split.
  - vm_compute in E. discriminate E.
Defined.
